(** * Layout and markup generation of the greeting-card imposition service

    A shallow embedding of [app.py]: the colour-directive builder
    ([get_prince_pdf_css]), the two document generators
    ([generate_flat_card_html], [generate_folded_card_html]), their dispatcher
    ([generate_html_for_image]) and the ICC profile reader
    ([get_icc_profile_base64]), followed by the properties the design document
    states about them.

    Conventions of the embedding.
    - A Python [str] is a [string] holding its UTF-8 bytes.  Concatenation,
      equality, emptiness and the substring relation are the same on code
      points and on their UTF-8 encoding.
    - A Python [float] is a primitive binary64 [float]; [int] is [Z].
    - A settings [dict] is a [gmap string value]; [d.get(k, v)] is [get].
    - The double quote character of a Python literal is written as a backquote
      inside the literals below and restored by [q]; no literal of the source
      holds a backquote. *)

From Stdlib Require Import ZArith String Ascii List.
From Stdlib.Strings Require Import Byte.
From Stdlib Require Import Floats.
From stdpp Require Import base strings pretty gmap.

Local Open Scope Z_scope.

(** ** Python values and the builtins the program uses *)

Module Py.

(** [chr(n)] as a one-character string (only used below 128). *)
Definition chr (n : nat) : string := String (ascii_of_nat n) EmptyString.

(** The double quote, and the literal reader that restores it. *)
Definition dquote : ascii := ascii_of_nat 34.

Fixpoint q (s : string) : string :=
  match s with
  | EmptyString => EmptyString
  | String c r => String (if Ascii.eqb c "`" then dquote else c) (q r)
  end.

(** [sep.join(l)] *)
Fixpoint join (sep : string) (l : list string) : string :=
  match l with
  | [] => EmptyString
  | [x] => x
  | x :: r => x +:+ sep +:+ join sep r
  end.

(** Numbers: [int] and [float]. *)
Inductive num : Type :=
  | NInt (z : Z)
  | NFloat (f : float).

(** Conversion of an [int] to the nearest [float] (round to nearest, ties to
    even); Python raises [OverflowError] where this gives an infinity. *)
Definition float_of_int (z : Z) : float :=
  SF2Prim (binary_normalize prec emax z 0 false).

(** [a + b] and [a * b] on numbers: [int] arithmetic when both are [int],
    binary64 arithmetic after conversion otherwise. *)
Definition num_add (a b : num) : num :=
  match a, b with
  | NInt x, NInt y => NInt (x + y)
  | NInt x, NFloat g => NFloat (float_of_int x + g)
  | NFloat f, NInt y => NFloat (f + float_of_int y)
  | NFloat f, NFloat g => NFloat (f + g)
  end.

Definition num_mul (a b : num) : num :=
  match a, b with
  | NInt x, NInt y => NInt (x * y)
  | NInt x, NFloat g => NFloat (float_of_int x * g)
  | NFloat f, NInt y => NFloat (f * float_of_int y)
  | NFloat f, NFloat g => NFloat (f * g)
  end.

(** The exact comparison of a [float] with an [int]: [None] for a NaN. *)
Definition float_int_compare (f : float) (z : Z) : option comparison :=
  match Prim2SF f with
  | S754_nan => None
  | S754_infinity s => Some (if s then Lt else Gt)
  | S754_zero _ => Some (0 ?= z)
  | S754_finite s m e =>
      let v := if s then Z.neg m else Z.pos m in
      Some (if 0 <=? e then v * 2 ^ e ?= z else v ?= z * 2 ^ (- e))
  end.

(** [a > b] *)
Definition num_gt (a b : num) : bool :=
  match a, b with
  | NInt x, NInt y => y <? x
  | NFloat f, NFloat g => PrimFloat.ltb g f
  | NFloat f, NInt y =>
      match float_int_compare f y with Some Gt => true | _ => false end
  | NInt x, NFloat g =>
      match float_int_compare g x with Some Lt => true | _ => false end
  end.

(** *** [repr] of a float

    CPython prints the shortest decimal string that reads back as the same
    binary64 value, the closest one to the value among the shortest; in
    positional notation when the decimal point falls within 16 digits to the
    right and 4 zeros to the left, with an exponent otherwise. *)

(** [n * 2^e2 * 10^e10], compared exactly. *)
Record scaled : Type := Scaled { s_num : Z; s_e2 : Z; s_e10 : Z }.

Definition scaled_compare (x y : scaled) : comparison :=
  let m2 := Z.min (s_e2 x) (s_e2 y) in
  let m10 := Z.min (s_e10 x) (s_e10 y) in
  (s_num x * 2 ^ (s_e2 x - m2) * 10 ^ (s_e10 x - m10)
   ?= s_num y * 2 ^ (s_e2 y - m2) * 10 ^ (s_e10 y - m10)).

Definition scaled_leb (x y : scaled) : bool :=
  match scaled_compare x y with Gt => false | _ => true end.

Definition scaled_ltb (x y : scaled) : bool :=
  match scaled_compare x y with Lt => true | _ => false end.

(** The decimal exponent [p] of [m * 2^e]: [10^(p-1) <= m * 2^e < 10^p],
    searched downwards from [p]. *)
Fixpoint decimal_point (fuel : nat) (m e p : Z) : Z :=
  match fuel with
  | O => p
  | S fuel' =>
      if scaled_leb (Scaled 1 0 (p - 1)) (Scaled m e 0) then p
      else decimal_point fuel' m e (p - 1)
  end.

(** A start for that search, at most four above the exponent: the binary
    logarithm times [log10 2], rounded up generously. *)
Definition decimal_point_bound (m e : Z) : Z :=
  (Z.log2 m + e + 1) * 30103 / 100000 + 3.

(** [floor (m * 2^e / 10^k)] *)
Definition scaled_floor (m e k : Z) : Z :=
  (m * 2 ^ Z.max e 0 * 10 ^ Z.max (- k) 0)
  / (2 ^ Z.max (- e) 0 * 10 ^ Z.max k 0).

(** Does the decimal [d * 10^k] read back as [m * 2^e]?  It does inside the
    rounding interval of the float, whose ends count when [m] is even.  The
    interval is in units of [2^(e-2)]: the lower neighbour is half as far at a
    power of two. *)
Definition reads_back (m e d k : Z) : bool :=
  let lower_gap := if (m =? 2 ^ 52) && (-1074 <? e) then 1 else 2 in
  let lo := Scaled (4 * m - lower_gap) (e - 2) 0 in
  let hi := Scaled (4 * m + 2) (e - 2) 0 in
  let x := Scaled d 0 k in
  if Z.even m then scaled_leb lo x && scaled_leb x hi
  else scaled_ltb lo x && scaled_ltb x hi.

(** The shortest digits: [Some (d, k)] with [d * 10^k] the decimal of
    [n] digits, for the least [n <= 17] that has one reading back; when both
    candidates do, the nearer one, and the even one when they are as near. *)
Fixpoint shortest_digits (fuel : nat) (m e p n : Z) : option (Z * Z) :=
  match fuel with
  | O => None
  | S fuel' =>
      let k := p - n in
      let d := scaled_floor m e k in
      let below := reads_back m e d k in
      let above := reads_back m e (d + 1) k in
      let take_above :=
        (* the middle of the two candidates against the value *)
        match scaled_compare (Scaled (2 * d + 1) 0 k) (Scaled (2 * m) e 0) with
        | Lt => true
        | Eq => Z.odd d
        | Gt => false
        end in
      if below && above then Some (if take_above then d + 1 else d, k)
      else if below then Some (d, k)
      else if above then Some (d + 1, k)
      else shortest_digits fuel' m e p (n + 1)
  end.

(** Trailing zeros of the digits move into the exponent. *)
Fixpoint strip_zeros (fuel : nat) (d k : Z) : Z * Z :=
  match fuel with
  | O => (d, k)
  | S fuel' =>
      if (d mod 10 =? 0) && negb (d =? 0) then strip_zeros fuel' (d / 10) (k + 1)
      else (d, k)
  end.

Fixpoint zeros (n : nat) : string :=
  match n with O => EmptyString | S n' => String "0" (zeros n') end.

Definition substr_from (n : nat) (s : string) : string :=
  String.substring n (String.length s - n) s.

(** The digits [ds] with the decimal point after [decpt] of them. *)
Definition positional (ds : string) (decpt : Z) : string :=
  let n := Z.of_nat (String.length ds) in
  if decpt <=? 0 then "0." +:+ zeros (Z.to_nat (- decpt)) +:+ ds
  else if n <=? decpt then ds +:+ zeros (Z.to_nat (decpt - n)) +:+ ".0"
  else String.substring 0 (Z.to_nat decpt) ds +:+ "."
       +:+ substr_from (Z.to_nat decpt) ds.

Definition exponential (ds : string) (decpt : Z) : string :=
  let x := decpt - 1 in
  let mant :=
    match ds with
    | String c EmptyString => ds
    | String c r => String c ("." +:+ r)
    | EmptyString => ds
    end in
  let ax := pretty (Z.abs x) in
  mant +:+ "e" +:+ (if x <? 0 then "-" else "+")
       +:+ (if Z.abs x <? 10 then "0" else EmptyString) +:+ ax.

Definition finite_repr (m e : Z) : string :=
  let p := decimal_point 8 m e (decimal_point_bound m e) in
  match shortest_digits 17 m e p 1 with
  | None => EmptyString
  | Some (d, k) =>
      let '(d', k') := strip_zeros 20 d k in
      let ds := pretty d' in
      let decpt := k' + Z.of_nat (String.length ds) in
      if (decpt <=? -4) || (16 <? decpt) then exponential ds decpt
      else positional ds decpt
  end.

Definition float_repr (f : float) : string :=
  match Prim2SF f with
  | S754_nan => "nan"
  | S754_infinity s => if s then "-inf" else "inf"
  | S754_zero s => if s then "-0.0" else "0.0"
  | S754_finite s m e =>
      (if s then "-" else EmptyString) +:+ finite_repr (Z.pos m) e
  end.

(** [str(n)], which is what an f-string prints for a number. *)
Definition num_str (n : num) : string :=
  match n with
  | NInt z => pretty z
  | NFloat f => float_repr f
  end.

(** Values a settings dictionary or an argument may hold. *)
Inductive value : Type :=
  | VNone
  | VBool (b : bool)
  | VNum (n : num)
  | VStr (s : string).

(** Truth value testing, as [if v:] does it. *)
Definition truthy (v : value) : bool :=
  match v with
  | VNone => false
  | VBool b => b
  | VNum (NInt z) => negb (z =? 0)
  | VNum (NFloat f) => negb (PrimFloat.eqb f 0)
  | VStr s => negb (String.eqb s EmptyString)
  end.

(** [format(v, '')], the text an f-string field [{v}] expands to. *)
Definition str (v : value) : string :=
  match v with
  | VNone => "None"
  | VBool b => if b then "True" else "False"
  | VNum n => num_str n
  | VStr s => s
  end.

(** [v == s] for a string literal [s]. *)
Definition eq_str (v : value) (s : string) : bool :=
  match v with
  | VStr t => String.eqb t s
  | _ => false
  end.

(** Truth value of a list: it is not empty. *)
Definition truthy_list {A : Type} (l : list A) : bool :=
  match l with [] => false | _ :: _ => true end.

(** [d.get(k, dflt)] *)
Definition get (d : gmap string value) (k : string) (dflt : value) : value :=
  default dflt (d !! k).

End Py.

(** ** The program *)

Module App.
Import Py.

(** *** The ICC profile store

    [ICC_PROFILES_DIR] depends on where the program is installed, and the
    files under it on earlier uploads: both are variables here.  [fs] maps the
    path of each existing file to its bytes. *)

(** [base64.b64encode(bs).decode('utf-8')] *)
Definition b64_alphabet : string :=
  "ABCDEFGHIJKLMNOPQRSTUVWXYZabcdefghijklmnopqrstuvwxyz0123456789+/".

Definition b64_char (n : N) : ascii :=
  default "="%char (String.get (N.to_nat (n mod 64)) b64_alphabet).

Fixpoint b64encode (bs : list byte) : string :=
  match bs with
  | [] => EmptyString
  | [a] =>
      let n := (Byte.to_N a * 65536)%N in
      String (b64_char (n / 262144)) (String (b64_char (n / 4096)) "==")
  | [a; b] =>
      let n := (Byte.to_N a * 65536 + Byte.to_N b * 256)%N in
      String (b64_char (n / 262144))
        (String (b64_char (n / 4096)) (String (b64_char (n / 64)) "="))
  | a :: b :: c :: r =>
      let n := (Byte.to_N a * 65536 + Byte.to_N b * 256 + Byte.to_N c)%N in
      String (b64_char (n / 262144))
        (String (b64_char (n / 4096))
           (String (b64_char (n / 64)) (String (b64_char n) (b64encode r))))
  end.

(** [s.lower()] on the ASCII letters, which is all that the [.icc] test
    below depends on. *)
Definition lower_ascii (c : ascii) : ascii :=
  let n := nat_of_ascii c in
  if (65 <=? n)%nat && (n <=? 90)%nat then ascii_of_nat (n + 32) else c.

Fixpoint lower (s : string) : string :=
  match s with
  | EmptyString => EmptyString
  | String c r => String (lower_ascii c) (lower r)
  end.

(** [s.endswith(x)] *)
Definition endswith (s x : string) : bool :=
  let n := String.length s in
  let k := String.length x in
  (k <=? n)%nat && String.eqb (String.substring (n - k) k s) x.

(** [os.path.join(a, b)] on POSIX paths. *)
Definition path_join (a b : string) : string :=
  if String.prefix "/" b then b
  else if String.eqb a EmptyString || endswith a "/" then a +:+ b
  else a +:+ "/" +:+ b.

Section icc_store.

Variable ICC_PROFILES_DIR : string.
Variable fs : gmap string (list byte).

(** Read an ICC profile from the directory and return as base64. *)
Definition get_icc_profile_base64 (profile_name : string) : value :=
  if String.eqb profile_name EmptyString then VNone
  else
    (* Add .icc extension if not present *)
    let profile_name :=
      if negb (endswith (lower profile_name) ".icc")
      then profile_name +:+ ".icc" else profile_name in
    let filepath := path_join ICC_PROFILES_DIR profile_name in
    match fs !! filepath with
    | Some bytes => VStr (b64encode bytes)
    | None => VNone
    end.

End icc_store.

(** Simulated back panel content *)
Definition BACK_PANEL_CONTENT : string :=
  q "
<div class=`back-content`>
    <div class=`logo-placeholder`>✦</div>
    <h2>Premium Greeting Card</h2>
    <p class=`tagline`>Crafted with care, delivered with love</p>
    <div class=`details`>
        <p>Made in USA</p>
        <p>Recycled Paper</p>
        <p>www.example.com</p>
    </div>
    <div class=`barcode-placeholder`>
        <div class=`barcode-lines`></div>
        <span>1234567890</span>
    </div>
</div>
".

(** Simulated inside panel content for folded cards *)
Definition INSIDE_LEFT_CONTENT : string :=
  q "
<div class=`inside-content inside-left`>
    <p class=`small-text`>Panel 2 - Inside Left</p>
</div>
".

Definition INSIDE_RIGHT_CONTENT : string :=
  q "
<div class=`inside-content inside-right`>
    <div class=`message-area`>
        <p class=`preprinted-message`>Wishing you all the best on your special day!</p>
        <div class=`signature-line`>
            <span>With love,</span>
            <div class=`line`></div>
        </div>
    </div>
    <p class=`small-text`>Panel 3 - Inside Right</p>
</div>
".

Definition PANEL_4_CONTENT : string :=
  q "
<div class=`back-content panel-4`>
    <div class=`logo-placeholder`>✦</div>
    <h2>Premium Greeting Card</h2>
    <p class=`tagline`>Crafted with care</p>
    <div class=`details`>
        <p>Made in USA • Recycled Paper</p>
        <p>www.example.com</p>
    </div>
    <div class=`barcode-placeholder`>
        <div class=`barcode-lines`></div>
        <span>1234567890</span>
    </div>
    <p class=`small-text`>Panel 4 - Back Cover</p>
</div>
".

(** *** The colour directive: [get_prince_pdf_css]

    The function's locals in the order it computes them; each list is the
    previous one with the conditional [append] applied. *)

Definition pdf_profile (settings : gmap string value) : value :=
  get settings "pdf_profile" (VStr "PDF/X-4").

(** Color options *)
Definition color_options (settings : gmap string value) : list string :=
  let color_options := [] in
  let color_options :=
    if truthy (get settings "use_true_black" (VBool true))
    then color_options ++ ["use-true-black"] else color_options in
  let color_options :=
    if truthy (get settings "use_cmyk_colors" (VBool false))
    then color_options ++ ["use-cmyk-colors"] else color_options in
  color_options.

Definition icc_base64 (settings : gmap string value) : value :=
  get settings "icc_base64" VNone.

Definition prince_pdf_css (settings : gmap string value) : list string :=
  let prince_pdf_css := [] in
  (* PDF Profile - set explicitly in CSS as well as prince_options *)
  let prince_pdf_css :=
    if truthy (pdf_profile settings)
    then prince_pdf_css
         ++ [q "prince-pdf-profile: `" +:+ str (pdf_profile settings) +:+ q "`;"]
    else prince_pdf_css in
  let prince_pdf_css :=
    if truthy_list (color_options settings)
    then prince_pdf_css
         ++ ["prince-pdf-color-options: "
             +:+ join " " (color_options settings) +:+ ";"]
    else prince_pdf_css in
  (* Output intent (ICC profile) - required for PDF/X compliance *)
  let prince_pdf_css :=
    if truthy (icc_base64 settings)
    then prince_pdf_css
         ++ [q "prince-pdf-output-intent: url(`data:application/vnd.iccprofile;base64,"
             +:+ str (icc_base64 settings) +:+ q "`);"]
    else prince_pdf_css in
  prince_pdf_css.

(** Generate @prince-pdf CSS block based on settings. *)
Definition get_prince_pdf_css (settings : gmap string value) : string :=
  if truthy_list (prince_pdf_css settings)
  then "
        @prince-pdf {
            "
       +:+ join (chr 10)
             (map (fun css => "            " +:+ css) (prince_pdf_css settings))
       +:+ "
        }
        "
  else EmptyString.

(** Return common CSS styles for all templates. *)
Definition get_common_styles : string :=
  "
        * {
            margin: 0;
            padding: 0;
            box-sizing: border-box;
        }
        
        .panel-content {
            width: 100%;
            height: 100%;
            display: flex;
            align-items: center;
            justify-content: center;
            overflow: hidden;
            position: relative;
        }
        
        .image {
            width: 100%;
            height: 100%;
            object-fit: cover;
            object-position: center;
        }
        
        /* Back panel styles */
        .back-content {
            width: 100%;
            height: 100%;
            display: flex;
            flex-direction: column;
            align-items: center;
            justify-content: center;
            text-align: center;
            padding: 0.5in;
            font-family: 'Georgia', serif;
            color: #333;
        }
        
        .back-content .logo-placeholder {
            font-size: 48pt;
            color: #c4a052;
            margin-bottom: 0.2in;
        }
        
        .back-content h2 {
            font-size: 14pt;
            font-weight: normal;
            letter-spacing: 2pt;
            text-transform: uppercase;
            margin-bottom: 0.1in;
        }
        
        .back-content .tagline {
            font-size: 10pt;
            font-style: italic;
            color: #666;
            margin-bottom: 0.3in;
        }
        
        .back-content .details {
            font-size: 8pt;
            color: #888;
            line-height: 1.6;
            margin-bottom: 0.3in;
        }
        
        .back-content .barcode-placeholder {
            display: flex;
            flex-direction: column;
            align-items: center;
        }
        
        .back-content .barcode-lines {
            width: 1.2in;
            height: 0.4in;
            background: repeating-linear-gradient(
                90deg,
                #000 0px,
                #000 2px,
                #fff 2px,
                #fff 4px,
                #000 4px,
                #000 5px,
                #fff 5px,
                #fff 8px
            );
            margin-bottom: 0.05in;
        }
        
        .back-content .barcode-placeholder span {
            font-family: 'Courier New', monospace;
            font-size: 8pt;
        }
        
        /* Inside panel styles */
        .inside-content {
            width: 100%;
            height: 100%;
            display: flex;
            flex-direction: column;
            align-items: center;
            justify-content: center;
            text-align: center;
            padding: 0.5in;
            font-family: 'Georgia', serif;
            color: #333;
        }
        
        .inside-content .message-area {
            max-width: 80%;
        }
        
        .inside-content .preprinted-message {
            font-size: 14pt;
            font-style: italic;
            line-height: 1.8;
            margin-bottom: 0.5in;
        }
        
        .inside-content .signature-line {
            text-align: left;
        }
        
        .inside-content .signature-line span {
            font-size: 12pt;
            display: block;
            margin-bottom: 0.1in;
        }
        
        .inside-content .signature-line .line {
            width: 2in;
            border-bottom: 1px solid #ccc;
            height: 0.3in;
        }
        
        .small-text {
            position: absolute;
            bottom: 0.15in;
            font-size: 6pt;
            color: #ccc;
        }
    ".

(** *** The flat card: [generate_flat_card_html]

    The locals first, then the f-string as a function of them. *)

Module Flat.

(** Card dimensions (trim size), in inches *)
Definition card_width : num := NFloat 4.75.
Definition card_height : num := NFloat 6.75.

(** 1/8 inch *)
Definition bleed (settings : gmap string value) : num :=
  if truthy (get settings "add_bleed" (VBool false)) then NFloat 0.125 else NInt 0.

(** Total dimensions with bleed *)
Definition total_width (settings : gmap string value) : num :=
  num_add card_width (num_mul (bleed settings) (NInt 2)).
Definition total_height (settings : gmap string value) : num :=
  num_add card_height (num_mul (bleed settings) (NInt 2)).

Definition fit_mode (settings : gmap string value) : value :=
  get settings "image_fit" (VStr "cover").
Definition bg_color (settings : gmap string value) : value :=
  get settings "background_color" (VStr "#ffffff").

(** Marks: crop only (no cross/registration marks) *)
Definition marks (settings : gmap string value) : string :=
  if num_gt (bleed settings) (NInt 0) then "crop" else "none".

(** Determine back panel content *)
Definition back_content (back_image_data back_image_type : value) : string :=
  if truthy back_image_data && truthy back_image_type
  then q "<img class=`image` src=`data:image/" +:+ str back_image_type +:+ ";base64," +:+ str back_image_data +:+ q "` alt=`Card Back`>"
  else BACK_PANEL_CONTENT.

Definition html
    (prince_pdf_block : string) (card_width card_height bleed : num)
    (marks : string) (total_width total_height : num)
    (bg_color fit_mode image_type image_data : value)
    (back_content : string) : string :=
  q "<!DOCTYPE html>
<html>
<head>
    <meta charset=`UTF-8`>
    <style>
        "
  +:+ prince_pdf_block
  +:+ "
        
        @page {
            size: "
  +:+ num_str card_width
  +:+ "in "
  +:+ num_str card_height
  +:+ "in;
            margin: 0;
            bleed: "
  +:+ num_str bleed
  +:+ "in;
            marks: "
  +:+ marks
  +:+ ";
        }
        
        "
  +:+ get_common_styles
  +:+ "
        
        html, body {
            margin: 0;
            padding: 0;
        }
        
        .page {
            position: relative;
            width: "
  +:+ num_str card_width
  +:+ "in;
            height: "
  +:+ num_str card_height
  +:+ "in;
            page-break-after: always;
            overflow: visible;
        }
        
        .page:last-child {
            page-break-after: avoid;
        }
        
        /* Content box extends into bleed area using negative positioning */
        .page-content {
            position: absolute;
            top: -"
  +:+ num_str bleed
  +:+ "in;
            left: -"
  +:+ num_str bleed
  +:+ "in;
            width: "
  +:+ num_str total_width
  +:+ "in;
            height: "
  +:+ num_str total_height
  +:+ "in;
            background-color: "
  +:+ str bg_color
  +:+ ";
        }
        
        .image {
            width: 100%;
            height: 100%;
            object-fit: "
  +:+ str fit_mode
  +:+ ";
            object-position: center;
            display: block;
        }
        
        .back-page-content {
            position: absolute;
            top: -"
  +:+ num_str bleed
  +:+ "in;
            left: -"
  +:+ num_str bleed
  +:+ "in;
            width: "
  +:+ num_str total_width
  +:+ "in;
            height: "
  +:+ num_str total_height
  +:+ "in;
            background-color: "
  +:+ str bg_color
  +:+ q ";
            display: flex;
            align-items: center;
            justify-content: center;
        }
    </style>
</head>
<body>
    <!-- Page 1: Front (uploaded image) -->
    <div class=`page`>
        <div class=`page-content`>
            <img class=`image` src=`data:image/"
  +:+ str image_type
  +:+ ";base64,"
  +:+ str image_data
  +:+ q "` alt=`Card Front`>
        </div>
    </div>
    
    <!-- Page 2: Back -->
    <div class=`page`>
        <div class=`back-page-content`>
            "
  +:+ back_content
  +:+ "
        </div>
    </div>
</body>
</html>".

End Flat.

(** Generate HTML for flat card (2 pages: front and back). *)
Definition generate_flat_card_html
    (image_data image_type : value) (settings : gmap string value)
    (back_image_data back_image_type : value) : string :=
  Flat.html (get_prince_pdf_css settings) Flat.card_width Flat.card_height
    (Flat.bleed settings) (Flat.marks settings)
    (Flat.total_width settings) (Flat.total_height settings)
    (Flat.bg_color settings) (Flat.fit_mode settings) image_type image_data
    (Flat.back_content back_image_data back_image_type).

(** *** The folded card: [generate_folded_card_html] *)

Module Folded.

(** Single panel dimensions (trim size), in inches *)
Definition panel_width : num := NFloat 4.75.
Definition panel_height : num := NFloat 6.75.

(** 1/8 inch *)
Definition bleed (settings : gmap string value) : num :=
  if truthy (get settings "add_bleed" (VBool false)) then NFloat 0.125 else NInt 0.

(** Spread dimensions (2 panels side by side) - this is the TRIM size *)
Definition spread_width : num := num_mul panel_width (NInt 2).
Definition spread_height : num := panel_height.

(** Total dimensions with bleed (content extends beyond trim) *)
Definition total_spread_width (settings : gmap string value) : num :=
  num_add spread_width (num_mul (bleed settings) (NInt 2)).
Definition total_spread_height (settings : gmap string value) : num :=
  num_add spread_height (num_mul (bleed settings) (NInt 2)).

Definition fit_mode (settings : gmap string value) : value :=
  get settings "image_fit" (VStr "cover").
Definition bg_color (settings : gmap string value) : value :=
  get settings "background_color" (VStr "#ffffff").

(** Marks: crop only (no cross/registration marks) *)
Definition marks (settings : gmap string value) : string :=
  if num_gt (bleed settings) (NInt 0) then "crop" else "none".

(** Determine back panel content (Panel 4) *)
Definition back_panel_content (back_image_data back_image_type : value) : string :=
  if truthy back_image_data && truthy back_image_type
  then q "<img class=`image` src=`data:image/" +:+ str back_image_type +:+ ";base64," +:+ str back_image_data +:+ q "` alt=`Back Cover`>"
  else PANEL_4_CONTENT.

(** Determine inside panel content (spans both Panel 2 and Panel 3): a single
    image spans both inside panels, and no fold indicator is needed then; the
    placeholder content gets one. *)
Definition inside_left_content (inside_image_data inside_image_type : value) : string :=
  if truthy inside_image_data && truthy inside_image_type
  then q "<img class=`image` src=`data:image/" +:+ str inside_image_type +:+ ";base64," +:+ str inside_image_data +:+ q "` alt=`Inside Left` style=`object-position: right center;`>"
  else INSIDE_LEFT_CONTENT.

Definition inside_right_content (inside_image_data inside_image_type : value) : string :=
  if truthy inside_image_data && truthy inside_image_type
  then q "<img class=`image` src=`data:image/" +:+ str inside_image_type +:+ ";base64," +:+ str inside_image_data +:+ q "` alt=`Inside Right` style=`object-position: left center;`>"
  else INSIDE_RIGHT_CONTENT.

Definition inside_fold_indicator (inside_image_data inside_image_type : value) : string :=
  if truthy inside_image_data && truthy inside_image_type
  then EmptyString
  else q "<div class=`fold-indicator`></div>".

Definition html
    (prince_pdf_block : string) (spread_width spread_height bleed : num)
    (marks : string) (total_spread_width total_spread_height : num)
    (bg_color fit_mode : value) (back_panel_content : string)
    (image_type image_data : value)
    (inside_left_content inside_right_content inside_fold_indicator : string)
    : string :=
  q "<!DOCTYPE html>
<html>
<head>
    <meta charset=`UTF-8`>
    <style>
        "
  +:+ prince_pdf_block
  +:+ "
        
        @page {
            size: "
  +:+ num_str spread_width
  +:+ "in "
  +:+ num_str spread_height
  +:+ "in;
            margin: 0;
            bleed: "
  +:+ num_str bleed
  +:+ "in;
            marks: "
  +:+ marks
  +:+ ";
        }
        
        "
  +:+ get_common_styles
  +:+ "
        
        html, body {
            margin: 0;
            padding: 0;
        }
        
        .spread {
            position: relative;
            width: "
  +:+ num_str spread_width
  +:+ "in;
            height: "
  +:+ num_str spread_height
  +:+ "in;
            page-break-after: always;
            overflow: visible;
        }
        
        .spread:last-child {
            page-break-after: avoid;
        }
        
        /* Content extends into bleed area */
        .spread-content {
            position: absolute;
            top: -"
  +:+ num_str bleed
  +:+ "in;
            left: -"
  +:+ num_str bleed
  +:+ "in;
            width: "
  +:+ num_str total_spread_width
  +:+ "in;
            height: "
  +:+ num_str total_spread_height
  +:+ "in;
            display: flex;
            flex-direction: row;
            background-color: "
  +:+ str bg_color
  +:+ ";
        }
        
        /* Each panel takes half the spread (plus outer bleed) */
        .panel {
            width: 50%;
            height: 100%;
            position: relative;
            overflow: hidden;
        }
        
        .panel-inner {
            width: 100%;
            height: 100%;
            display: flex;
            align-items: center;
            justify-content: center;
            position: relative;
            background-color: "
  +:+ str bg_color
  +:+ ";
        }
        
        .image {
            width: 100%;
            height: 100%;
            object-fit: "
  +:+ str fit_mode
  +:+ q ";
            object-position: center;
            display: block;
        }
        
        /* Fold line indicator (visual guide on trim, very subtle) */
        .fold-indicator {
            position: absolute;
            top: 0;
            left: 50%;
            width: 0;
            height: 100%;
            border-left: 0.5px dashed rgba(200, 200, 200, 0.5);
            z-index: 10;
        }
    </style>
</head>
<body>
    <!-- Spread 1: Outside (Panel 4 left | Panel 1 right) -->
    <!-- When printed and folded, Panel 1 becomes front cover, Panel 4 becomes back -->
    <div class=`spread`>
        <div class=`spread-content`>
            <!-- Panel 4: Back Cover (left side of spread) -->
            <div class=`panel`>
                <div class=`panel-inner`>
                    "
  +:+ back_panel_content
  +:+ q "
                </div>
            </div>
            <!-- Panel 1: Front Cover (right side of spread) - uploaded image -->
            <div class=`panel`>
                <div class=`panel-inner`>
                    <img class=`image` src=`data:image/"
  +:+ str image_type
  +:+ ";base64,"
  +:+ str image_data
  +:+ q "` alt=`Front Cover`>
                </div>
            </div>
        </div>
        <div class=`fold-indicator`></div>
    </div>
    
    <!-- Spread 2: Inside (Panel 2 left | Panel 3 right) -->
    <div class=`spread`>
        <div class=`spread-content`>
            <!-- Panel 2: Inside Left -->
            <div class=`panel`>
                <div class=`panel-inner`>
                    "
  +:+ inside_left_content
  +:+ q "
                </div>
            </div>
            <!-- Panel 3: Inside Right -->
            <div class=`panel`>
                <div class=`panel-inner`>
                    "
  +:+ inside_right_content
  +:+ "
                </div>
            </div>
        </div>
        "
  +:+ inside_fold_indicator
  +:+ "
    </div>
</body>
</html>".

End Folded.

(** Generate HTML for folded card (2 spreads: outside and inside). *)
Definition generate_folded_card_html
    (image_data image_type : value) (settings : gmap string value)
    (inside_image_data inside_image_type back_image_data back_image_type : value)
    : string :=
  Folded.html (get_prince_pdf_css settings) Folded.spread_width
    Folded.spread_height (Folded.bleed settings) (Folded.marks settings)
    (Folded.total_spread_width settings) (Folded.total_spread_height settings)
    (Folded.bg_color settings) (Folded.fit_mode settings)
    (Folded.back_panel_content back_image_data back_image_type)
    image_type image_data
    (Folded.inside_left_content inside_image_data inside_image_type)
    (Folded.inside_right_content inside_image_data inside_image_type)
    (Folded.inside_fold_indicator inside_image_data inside_image_type).

(** *** The dispatcher: [generate_html_for_image]

    [additional_images] is [None] or a dictionary with optional entries
    [back] and [inside], each a dictionary with [data] and [type]. *)

(** [additional_images.get(k, {}).get(field)] *)
Definition image_field (additional_images : gmap string (gmap string value))
    (k field : string) : value :=
  default VNone (default ∅ (additional_images !! k) !! field).

(** Generate HTML document for DocRaptor based on card type. *)
Definition generate_html_for_image
    (image_data image_type : value) (settings : gmap string value)
    (additional_images : option (gmap string (gmap string value))) : string :=
  let additional_images := default ∅ additional_images in
  let card_type := get settings "card_type" (VStr "flat") in
  (* Extract additional image data *)
  let back_data := image_field additional_images "back" "data" in
  let back_type := image_field additional_images "back" "type" in
  let inside_data := image_field additional_images "inside" "data" in
  let inside_type := image_field additional_images "inside" "type" in
  if eq_str card_type "folded"
  then generate_folded_card_html image_data image_type settings
         inside_data inside_type back_data back_type
  else generate_flat_card_html image_data image_type settings
         back_data back_type.

End App.

(** ** The generated document, described

    The vocabulary the properties below are stated in: what it means for a
    text to occur in the output, and the pieces of markup the design document
    names (the [@page] rule, the page-break rules, the content box, pages,
    panels and spreads).  None of these is used by the program above: each
    property proves that the program's output has them. *)

Module Doc.
Import Py App.

(** [x in t] *)
Definition contains (t x : string) : Prop :=
  exists pre post, t = pre +:+ x +:+ post.

(** [t.endswith(x)], as a proposition *)
Definition ends_with (t x : string) : Prop :=
  exists pre, t = pre +:+ x.

(** The decision procedure for [contains]. *)
Fixpoint has_sub (x t : string) : bool :=
  if String.prefix x t then true
  else match t with
       | EmptyString => false
       | String _ r => has_sub x r
       end.

Fixpoint take (n : nat) (s : string) : string :=
  match n, s with
  | S n', String c r => String c (take n' r)
  | _, _ => EmptyString
  end.

Fixpoint drop (n : nat) (s : string) : string :=
  match n, s with
  | S n', String _ r => drop n' r
  | _, _ => s
  end.

(** The characters of [s] that satisfy [p], in order. *)
Fixpoint keep (p : ascii -> bool) (s : string) : string :=
  match s with
  | EmptyString => EmptyString
  | String c r => if p c then String c (keep p r) else keep p r
  end.

(** The characters that open, close or quote markup.  Base64 text and the
    image types the upload form lets through hold none of them. *)
Definition markup_char (c : ascii) : bool :=
  Ascii.eqb c "<" || Ascii.eqb c ">" || Ascii.eqb c dquote || Ascii.eqb c "!".

Definition markup_free (s : string) : Prop :=
  keep markup_char s = EmptyString.

(** The [@page] rule with its four values. *)
Definition at_page_rule (width height bleed marks : string) : string :=
  "@page {
            size: " +:+ width +:+ "in " +:+ height +:+ "in;
            margin: 0;
            bleed: " +:+ bleed +:+ "in;
            marks: " +:+ marks +:+ ";
        }".

(** The two rules that chain the pages (or spreads) of class [cls]: a break
    after each, and none after the last. *)
Definition break_rules (cls width height : string) : string :=
  "." +:+ cls +:+ " {
            position: relative;
            width: " +:+ width +:+ "in;
            height: " +:+ height +:+ "in;
            page-break-after: always;
            overflow: visible;
        }
        
        ." +:+ cls +:+ ":last-child {
            page-break-after: avoid;
        }".

(** The head of the rule that places the content box of class [cls]. *)
Definition content_box (cls bleed total_width total_height : string) : string :=
  "." +:+ cls +:+ " {
            position: absolute;
            top: -" +:+ bleed +:+ "in;
            left: -" +:+ bleed +:+ "in;
            width: " +:+ total_width +:+ "in;
            height: " +:+ total_height +:+ "in;".

(** The panels of a spread are laid out in a row, first one leftmost. *)
Definition row_layout : string :=
  "display: flex;
            flex-direction: row;".

(** An embedded image, and one with the half of it to show. *)
Definition image_tag (type data : value) (alt : string) : string :=
  q "<img class=`image` src=`data:image/" +:+ str type +:+ ";base64,"
  +:+ str data +:+ q "` alt=`" +:+ alt +:+ q "`>".

Definition half_image_tag (type data : value) (alt position : string) : string :=
  q "<img class=`image` src=`data:image/" +:+ str type +:+ ";base64,"
  +:+ str data +:+ q "` alt=`" +:+ alt +:+ q "` style=`object-position: "
  +:+ position +:+ q " center;`>".

(** A page of the flat card: [content] in a box of class [box]. *)
Definition page (box content : string) : string :=
  q "    <div class=`page`>
        <div class=`" +:+ box +:+ q "`>
            " +:+ content +:+ "
        </div>
    </div>".

(** The body of the flat card's document, to the end of the document. *)
Definition flat_body (front back : string) : string :=
  "<body>
    <!-- Page 1: Front (uploaded image) -->
" +:+ page "page-content" front +:+ "
    
    <!-- Page 2: Back -->
" +:+ page "back-page-content" back +:+ "
</body>
</html>".

(** The fold-guide indicator element, and the rule that draws it: a dashed
    vertical line at the middle of the spread. *)
Definition fold_indicator : string := q "<div class=`fold-indicator`></div>".

Definition fold_indicator_rule : string :=
  ".fold-indicator {
            position: absolute;
            top: 0;
            left: 50%;
            width: 0;
            height: 100%;
            border-left: 0.5px dashed rgba(200, 200, 200, 0.5);
            z-index: 10;
        }".

(** A panel of a spread, under its comment. *)
Definition panel (note content : string) : string :=
  "            <!-- " +:+ note +:+ q " -->
            <div class=`panel`>
                <div class=`panel-inner`>
                    " +:+ content +:+ "
                </div>
            </div>".

(** A spread: the left panel, the right panel, and what stands in the place
    of the fold indicator. *)
Definition spread (left right indicator : string) : string :=
  q "    <div class=`spread`>
        <div class=`spread-content`>
" +:+ left +:+ "
" +:+ right +:+ "
        </div>
        " +:+ indicator +:+ "
    </div>".

Definition outside_spread (back front : string) : string :=
  spread (panel "Panel 4: Back Cover (left side of spread)" back)
         (panel "Panel 1: Front Cover (right side of spread) - uploaded image" front)
         fold_indicator.

Definition inside_spread (inside_left inside_right indicator : string) : string :=
  spread (panel "Panel 2: Inside Left" inside_left)
         (panel "Panel 3: Inside Right" inside_right)
         indicator.

(** What follows the last spread. *)
Definition document_end : string := "
</body>
</html>".

(** The body of the folded card's document, to the end of the document. *)
Definition folded_body (outside inside : string) : string :=
  "<body>
    <!-- Spread 1: Outside (Panel 4 left | Panel 1 right) -->
    <!-- When printed and folded, Panel 1 becomes front cover, Panel 4 becomes back -->
" +:+ outside +:+ "
    
    <!-- Spread 2: Inside (Panel 2 left | Panel 3 right) -->
" +:+ inside +:+ document_end.

(** The colour directive of the design document's example: profile
    [PDF/X-1a], both colour options, and the two ICC bytes [00 01]. *)
Definition example_directive : string :=
  q "
        @prince-pdf {
                        prince-pdf-profile: `PDF/X-1a`;
            prince-pdf-color-options: use-true-black use-cmyk-colors;
            prince-pdf-output-intent: url(`data:application/vnd.iccprofile;base64,AAE=`);
        }
        ".

End Doc.

(** ** Inputs the properties are tried on *)

Module Examples.
Import Py App.

(** An ICC profile store with one file, of the two bytes [00 01]. *)
Definition example_store : gmap string (list byte) :=
  {[ "/srv/app/icc_profiles/press.icc" := [x00; x01] ]}.

(** The settings of the design document's colour example. *)
Definition example_settings : gmap string value :=
  <["pdf_profile" := VStr "PDF/X-1a"]>
    (<["use_true_black" := VBool true]>
       (<["use_cmyk_colors" := VBool true]>
          {[ "icc_base64" :=
               get_icc_profile_base64 "/srv/app/icc_profiles" example_store
                 "press.icc" ]})).

(** Settings with nothing for the colour directive to say. *)
Definition bare_settings : gmap string value :=
  <["pdf_profile" := VStr EmptyString]>
    (<["use_true_black" := VBool false]>
       (<["use_cmyk_colors" := VBool false]> {[ "icc_base64" := VNone ]})).

(** A card type that is neither [flat] nor [folded], and [flat]. *)
Definition postcard_settings : gmap string value :=
  {[ "card_type" := VStr "postcard" ]}.

Definition flat_settings : gmap string value :=
  {[ "card_type" := VStr "flat" ]}.

(** Additional images: a back image, and the same with an inside image. *)
Definition back_only : gmap string (gmap string value) :=
  {[ "back" := <["data" := VStr "AAE="]> {[ "type" := VStr "png" ]} ]}.

Definition back_and_inside : gmap string (gmap string value) :=
  <["inside" := <["data" := VStr "TWFu"]> {[ "type" := VStr "jpeg" ]}]>
    back_only.

(** An inside image of the three bytes [4d 61 6e], as the upload form
    encodes it. *)
Definition inside_data : value := VStr (b64encode [x4d; x61; x6e]).
Definition inside_type : value := VStr "jpeg".

End Examples.

(** ** The request handlers

    The upload check ([allowed_file]), the preview handler ([preview_html]),
    the settings the PDF handler builds, the conversion request of
    [create_pdf] and the name of the file the PDF is returned under.  A
    request is the two maps Flask gives the handlers: the uploaded files and
    the form fields.  What Python leaves open or another library decides is a
    variable: the order in which the set of extensions is listed, and the
    conversion service. *)

Module Web.
Import Py App.

(** Allowed image extensions *)
Definition ALLOWED_EXTENSIONS : gset string :=
  {[ "png"; "jpg"; "jpeg"; "gif"; "webp"; "tiff"; "tif" ]}.

(** [c in s] for a character [c] *)
Fixpoint has_char (c : ascii) (s : string) : bool :=
  match s with
  | EmptyString => false
  | String d r => Ascii.eqb d c || has_char c r
  end.

(** [s.rsplit(c, 1)]: the text before the last [c] and the text after it, or
    [s] alone when it has no [c]. *)
Fixpoint rsplit1 (c : ascii) (s : string) : list string :=
  match s with
  | EmptyString => [EmptyString]
  | String d r =>
      match rsplit1 c r with
      | [a; b] => [String d a; b]
      | _ => if Ascii.eqb d c then [EmptyString; r] else [s]
      end
  end.

(** The membership test lower-cases the extension; a name whose extension has
    a letter outside ASCII is refused by Python and by this model alike, since
    no such letter has a lower case among the letters of the set. *)
Definition allowed_file (filename : string) : bool :=
  has_char "." filename
  && match rsplit1 "." filename !! 1%nat with
     | Some ext => bool_decide (lower ext ∈ ALLOWED_EXTENSIONS)
     | None => false
     end.

(** An uploaded file, and a request. *)
Record upload : Type := Upload { filename : string; content : list byte }.

Record request : Type :=
  Request { files : gmap string upload; form : gmap string string }.

(** [request.form.get(k, dflt)] and [request.form.get(k) == 'true'] *)
Definition form_get (rq : request) (k dflt : string) : string :=
  default dflt (form rq !! k).

Definition form_flag (rq : request) (k : string) : bool :=
  bool_decide (form rq !! k = Some "true").

(** What a handler answers: [jsonify({key: body}), status], or an exception
    it does not catch. *)
Inductive response : Type :=
  | Json (status : Z) (key body : string)
  | Raised.

(** The type an image is embedded under: its extension in lower case, with
    [jpg] written [jpeg].  [None] is the [IndexError] of [rsplit(...)[1]]. *)
Definition image_type_of (filename : string) : option string :=
  image_type ← rsplit1 "." filename !! 1%nat;
  let image_type := lower image_type in
  Some (if String.eqb image_type "jpg" then "jpeg" else image_type).

(** Read and encode an image: its data and its type. *)
Definition encode_image (file : upload) : option (value * value) :=
  image_type ← image_type_of (filename file);
  Some (VStr (b64encode (content file)), VStr image_type).

(** An optional image of the form.  It is taken when it is there, named, and
    of an allowed type; otherwise it is passed over without an error. *)
Definition optional_image (rq : request) (field : string)
    : option (option (gmap string value)) :=
  match files rq !! field with
  | Some file =>
      if negb (String.eqb (filename file) EmptyString)
         && allowed_file (filename file)
      then '(data, type) ← encode_image file;
           Some (Some (<["data" := data]> {[ "type" := type ]}))
      else Some None
  | None => Some None
  end.

(** Process additional images if provide_all_images is checked: the back
    image, and the inside image (only for folded cards). *)
Definition collect_additional_images (rq : request) (card_type : string)
    : option (gmap string (gmap string value)) :=
  let additional_images : gmap string (gmap string value) := ∅ in
  if form_flag rq "provide_all_images" then
    back ← optional_image rq "back_image";
    let additional_images :=
      match back with
      | Some image => <["back" := image]> additional_images
      | None => additional_images
      end in
    if String.eqb card_type "folded" then
      inside ← optional_image rq "inside_image";
      Some match inside with
           | Some image => <["inside" := image]> additional_images
           | None => additional_images
           end
    else Some additional_images
  else Some additional_images.

(** Build settings from form, as [preview_html] does. *)
Definition preview_settings (rq : request) (card_type : string)
    (icc_base64 : value) : gmap string value :=
  <["card_type" := VStr card_type]>
    (<["pdf_profile" := VStr (form_get rq "pdf_profile" "PDF/X-4")]>
       (<["icc_base64" := icc_base64]>
          (<["add_bleed" := VBool (form_flag rq "add_bleed")]>
             (<["use_true_black" := VBool (form_flag rq "use_true_black")]>
                (<["use_cmyk_colors" := VBool (form_flag rq "use_cmyk_colors")]>
                   (<["image_fit" := VStr (form_get rq "image_fit" "cover")]>
                      {[ "background_color" :=
                           VStr (form_get rq "background_color" "#ffffff") ]})))))).

(** Build settings from form, as [generate_pdf] does: two more keys. *)
Definition generate_pdf_settings (rq : request) (card_type : string)
    (icc_base64 : value) : gmap string value :=
  <["force_cmyk" := VBool (form_flag rq "force_cmyk")]>
    (<["test_mode" := VBool (form_flag rq "test_mode")]>
       (preview_settings rq card_type icc_base64)).

Section handlers.

Variable ICC_PROFILES_DIR : string.
Variable fs : gmap string (list byte).
(** The extensions in the order [", ".join(ALLOWED_EXTENSIONS)] lists them. *)
Variable allowed_order : list string.

(** Get ICC profile from selected existing profile *)
Definition selected_icc (rq : request) : value :=
  let selected_profile := form_get rq "icc_profile" EmptyString in
  if negb (String.eqb selected_profile EmptyString)
  then get_icc_profile_base64 ICC_PROFILES_DIR fs selected_profile
  else VNone.

(** Preview the generated HTML without calling DocRaptor. *)
Definition preview_html (rq : request) : response :=
  match files rq !! "image" with
  | None => Json 400 "error" "No image file provided"
  | Some file =>
      if String.eqb (filename file) EmptyString
      then Json 400 "error" "No image file selected"
      else if negb (allowed_file (filename file))
      then Json 400 "error"
             ("Invalid file type. Allowed: " +:+ join ", " allowed_order)
      else
        match encode_image file with
        | None => Raised
        | Some (image_data, image_type) =>
            let card_type := form_get rq "card_type" "flat" in
            match collect_additional_images rq card_type with
            | None => Raised
            | Some additional_images =>
                let icc_base64 := selected_icc rq in
                let settings := preview_settings rq card_type icc_base64 in
                Json 200 "html"
                  (generate_html_for_image image_data image_type settings
                     (Some additional_images))
            end
        end
  end.

End handlers.

(** *** [create_pdf] *)

(** Build prince_options *)
Definition prince_options (settings : gmap string value) : gmap string value :=
  let prince_options : gmap string value := {[ "css_dpi" := VNum (NInt 300) ]} in
  let pdf_profile := get settings "pdf_profile" (VStr "PDF/X-4") in
  let prince_options :=
    if truthy pdf_profile
    then <["profile" := pdf_profile]> prince_options else prince_options in
  let pdf_version := get settings "pdf_version" VNone in
  let prince_options :=
    if truthy pdf_version
    then <["pdf_version" := pdf_version]> prince_options else prince_options in
  let prince_options :=
    if truthy (get settings "force_cmyk" (VBool false))
    then <["force_identity_encoding" := VBool false]> prince_options
    else prince_options in
  prince_options.

(** The document request; [prince_options] is a key the request has only
    when the options are not empty. *)
Record doc_params : Type :=
  DocParams {
    doc_name : string;
    document_type : string;
    document_content : string;
    test : value;
    doc_prince_options : option (gmap string value)
  }.

Definition create_pdf_params (html_content : string)
    (settings : gmap string value) : doc_params :=
  let options := prince_options settings in
  {| doc_name := "docraptor-test.pdf";
     document_type := "pdf";
     document_content := html_content;
     test := get settings "test_mode" (VBool true);
     doc_prince_options :=
       if bool_decide (options = ∅) then None else Some options |}.

Section conversion.

(** The conversion service: the PDF, or the text of its [ApiException]. *)
Variable create_doc : string -> doc_params -> list byte + string.

(** Create PDF using DocRaptor API. *)
Definition create_pdf (html_content : string) (settings : gmap string value)
    (api_key : string) : option (list byte) * option string :=
  match create_doc api_key (create_pdf_params html_content settings) with
  | inl response => (Some response, None)
  | inr e => (None, Some e)
  end.

End conversion.

(** [s.replace('/', '-')] *)
Fixpoint replace_slash (s : string) : string :=
  match s with
  | EmptyString => EmptyString
  | String c r => String (if Ascii.eqb c "/" then "-"%char else c) (replace_slash r)
  end.

(** The name the PDF is saved and sent under, from the settings' profile. *)
Definition output_filename (pdf_profile : string) : string :=
  "output_"
  +:+ (if negb (String.eqb pdf_profile EmptyString)
       then replace_slash pdf_profile else "default")
  +:+ ".pdf".

End Web.

(** ** The style sheet, described

    Two more pieces of the style sheet the properties name: the rule every
    embedded image is laid out by, and the background declaration of a
    content box. *)

Module Sheet.

Definition image_rule (fit : string) : string :=
  ".image {
            width: 100%;
            height: 100%;
            object-fit: " +:+ fit +:+ ";
            object-position: center;
            display: block;
        }".

Definition background (color : string) : string :=
  "
            background-color: " +:+ color +:+ ";".

End Sheet.

From Stdlib Require Import Sorted.

(** ** The list of profiles

    [get_available_icc_profiles] lists the [.icc] files of the profile
    directory, ordered by name.  The directory's entries come in the order
    the file system gives them, and the names are ordered by their lower-case
    form over the whole of Unicode: both are variables.  Texts are compared
    as Python compares them, which on UTF-8 is byte by byte. *)

Module Profiles.
Import Py App Web.

(** An entry of the list: [{'filename': ..., 'name': ...}]. *)
Record icc_profile : Type :=
  IccProfile { icc_filename : string; icc_name : string }.

Fixpoint all_dots (s : string) : bool :=
  match s with
  | EmptyString => true
  | String c r => Ascii.eqb c "." && all_dots r
  end.

(** [os.path.splitext(p)[0]]: [p] without its extension.  The extension
    starts at the last dot of the last component, unless nothing but dots
    comes before it there. *)
Definition splitext_root (p : string) : string :=
  match rsplit1 "/" p with
  | [dir; base] =>
      match rsplit1 "." base with
      | [root; _] => if all_dots root then p else dir +:+ "/" +:+ root
      | _ => p
      end
  | _ =>
      match rsplit1 "." p with
      | [root; _] => if all_dots root then p else root
      | _ => p
      end
  end.

Section listing.

(** [os.listdir(ICC_PROFILES_DIR)], or [None] when the directory is not
    there. *)
Variable listdir : option (list string).
(** [str.lower] *)
Variable str_lower : string -> string.

Definition sort_key (x : icc_profile) : string := str_lower (icc_name x).

(** [sorted(profiles, key=...)]: each entry goes after those whose key is not
    greater, so entries with the same key keep their order. *)
Fixpoint insert_sorted (x : icc_profile) (l : list icc_profile)
    : list icc_profile :=
  match l with
  | [] => [x]
  | y :: r =>
      if String.ltb (sort_key x) (sort_key y) then x :: l
      else y :: insert_sorted x r
  end.

Definition sorted (l : list icc_profile) : list icc_profile :=
  fold_left (fun acc x => insert_sorted x acc) l [].

(** Get list of available ICC profiles from the icc_profiles directory. *)
Definition get_available_icc_profiles : list icc_profile :=
  let profiles :=
    match listdir with
    | Some names =>
        map (fun filename => IccProfile filename (splitext_root filename))
          (List.filter (fun filename => endswith (lower filename) ".icc")
             names)
    | None => []
    end in
  sorted profiles.

End listing.

End Profiles.

(** ** Requests the properties are tried on *)

Module Requests.
Import App Web.

(** Where the profiles are kept, and the extensions in some order. *)
Definition profiles_dir : string := "/srv/app/icc_profiles".

Definition extension_order : list string :=
  ["png"; "jpg"; "jpeg"; "gif"; "webp"; "tiff"; "tif"].

(** A front image, a back image, and a file that is no image. *)
Definition photo : upload := Upload "Photo.JPG" [x4d; x61; x6e].
Definition back_photo : upload := Upload "back.png" [x00; x01].
Definition notes : upload := Upload "notes.txt" [x4d].

(** The front image alone, and with a file in another field. *)
Definition front_only (form : gmap string string) : request :=
  Request {[ "image" := photo ]} form.

Definition front_and (field : string) (file : upload)
    (form : gmap string string) : request :=
  Request (<[field := file]> {[ "image" := photo ]}) form.

(** Forms: the flag for additional images, an unknown card type, a profile
    that is not in the store, and a profile named by an absolute path. *)
Definition all_images : gmap string string :=
  {[ "provide_all_images" := "true" ]}.

Definition postcard : gmap string string := {[ "card_type" := "postcard" ]}.


Definition outside_profile : gmap string string :=
  {[ "icc_profile" := "/etc/color/press.icc" ]}.

(** A directory with one profile and a file that is none. *)
Definition example_listing : option (list string) :=
  Some ["notes.txt"; "press.icc"].

End Requests.

(** ** Properties *)

Import Py App Doc Examples.

(** *** Strings *)

Lemma append_assoc (a b c : string) : (a +:+ b) +:+ c = a +:+ (b +:+ c).
Proof.
  induction a as [|ch a IH]; [reflexivity|].
  change (String ch ((a +:+ b) +:+ c) = String ch (a +:+ (b +:+ c))).
  now rewrite IH.
Qed.

Lemma append_nil_r (a : string) : a +:+ EmptyString = a.
Proof.
  induction a as [|ch a IH]; [reflexivity|].
  change (String ch (a +:+ EmptyString) = String ch a). now rewrite IH.
Qed.

Lemma prefix_spec (x t : string) :
  String.prefix x t = true <-> exists post, t = x +:+ post.
Proof.
  revert t. induction x as [|c x IH]; intros [|d t]; cbn.
  - split; [intros _; now exists EmptyString | reflexivity].
  - split; [intros _; now exists (String d t) | reflexivity].
  - split; [discriminate | intros [post H]; discriminate].
  - destruct (ascii_dec c d) as [->|Hne].
    + rewrite IH. split; intros [post H]; exists post.
      * now rewrite H.
      * now inversion H.
    + split; [discriminate | intros [post H]; injection H as H1 H2; congruence].
Qed.

Lemma has_sub_sound (x t : string) : has_sub x t = true -> contains t x.
Proof.
  induction t as [|c t IH]; cbn [has_sub];
    destruct (String.prefix x _) eqn:E; intros H.
  - apply prefix_spec in E as [post E]. now exists EmptyString, post.
  - discriminate H.
  - apply prefix_spec in E as [post E]. now exists EmptyString, post.
  - destruct (IH H) as (pre & post & ->). now exists (String c pre), post.
Qed.

Lemma has_sub_complete (x t : string) : contains t x -> has_sub x t = true.
Proof.
  intros (pre & post & ->). induction pre as [|c pre IH].
  - assert (E : String.prefix x (x +:+ post) = true) by (apply prefix_spec; eauto).
    change (EmptyString +:+ x +:+ post) with (x +:+ post).
    destruct (x +:+ post); cbn [has_sub]; now rewrite E.
  - change (String c pre +:+ x +:+ post) with (String c (pre +:+ x +:+ post)).
    cbn [has_sub]. rewrite IH. now destruct (String.prefix x _).
Qed.

Lemma contains_refl (x : string) : contains x x.
Proof. exists EmptyString, EmptyString. now rewrite append_nil_r. Qed.

Lemma contains_app_r (s t x : string) : contains t x -> contains (s +:+ t) x.
Proof.
  intros (pre & post & ->). exists (s +:+ pre), post. now rewrite append_assoc.
Qed.

Lemma contains_app_l (s t x : string) : contains s x -> contains (s +:+ t) x.
Proof.
  intros (pre & post & ->). exists pre, (post +:+ t). now rewrite !append_assoc.
Qed.

Lemma contains_trans (t s x : string) : contains t s -> contains s x -> contains t x.
Proof.
  intros (a & b & ->) (c & d & ->). exists (a +:+ c), (d +:+ b).
  now rewrite !append_assoc.
Qed.

Lemma ends_with_contains (t x : string) : ends_with t x -> contains t x.
Proof. intros (pre & ->). exists pre, EmptyString. now rewrite append_nil_r. Qed.

Lemma ends_with_app (s t x : string) : ends_with t x -> ends_with (s +:+ t) x.
Proof.
  intros (pre & ->). exists (s +:+ pre). now rewrite append_assoc.
Qed.

Lemma take_drop (n : nat) (s : string) : take n s +:+ drop n s = s.
Proof.
  revert s. induction n as [|n IH]; intros [|c s]; try reflexivity.
  change (String c (take n s +:+ drop n s) = String c s). now rewrite IH.
Qed.

Lemma ends_with_cut (n : nat) (l r x : string) :
  drop n l +:+ r = x -> ends_with (l +:+ r) x.
Proof.
  intros <-. exists (take n l). now rewrite <- append_assoc, take_drop.
Qed.

Lemma keep_app (p : ascii -> bool) (a b : string) :
  keep p (a +:+ b) = keep p a +:+ keep p b.
Proof.
  induction a as [|c a IH]; [reflexivity|].
  change (keep p (String c (a +:+ b)) = keep p (String c a) +:+ keep p b).
  cbn [keep]. rewrite IH. now destruct (p c).
Qed.

Lemma contains_keep (p : ascii -> bool) (t x : string) :
  contains t x -> contains (keep p t) (keep p x).
Proof.
  intros (pre & post & ->). exists (keep p pre), (keep p post).
  now rewrite !keep_app.
Qed.

(** A text is absent when its markup characters do not occur, in order, among
    those of the whole. *)
Lemma absent_by_markup (t x : string) :
  has_sub (keep markup_char x) (keep markup_char t) = false -> ~ contains t x.
Proof.
  intros H C. apply (contains_keep markup_char), has_sub_complete in C.
  congruence.
Qed.

(** Skip the leading pieces of a concatenation up to the literal that holds
    [marker], and cut that one where the marker starts. *)
Ltac index_in marker l :=
  lazymatch l with
  | q _ => eval vm_compute in (String.index 0 marker l)
  | String _ _ => eval vm_compute in (String.index 0 marker l)
  | _ => constr:(@None nat)
  end.

Ltac find_tail marker :=
  lazymatch goal with
  | |- ends_with (?l +:+ ?r) ?x =>
      let i := index_in marker l in
      lazymatch i with
      | Some ?n => apply (ends_with_cut n)
      | _ => apply ends_with_app; find_tail marker
      end
  end.

(** Find a closed text in a concatenation: by computation in the leading
    pieces, or further right. *)
Ltac find_sub :=
  first [ apply has_sub_sound; vm_compute; reflexivity
        | apply contains_app_r; find_sub ].

(** Name the parts of a document that are not literal, so that computation
    stops at them. *)
Ltac hide_values :=
  repeat match goal with
         | |- context [str ?v] => generalize (str v); intro
         | |- context [get_prince_pdf_css ?s] =>
             generalize (get_prince_pdf_css s); intro
         | |- context [Flat.back_content ?d ?t] =>
             generalize (Flat.back_content d t); intro
         | |- context [Folded.back_panel_content ?d ?t] =>
             generalize (Folded.back_panel_content d t); intro
         | |- context [Folded.inside_left_content ?d ?t] =>
             generalize (Folded.inside_left_content d t); intro
         | |- context [Folded.inside_right_content ?d ?t] =>
             generalize (Folded.inside_right_content d t); intro
         | |- context [Folded.inside_fold_indicator ?d ?t] =>
             generalize (Folded.inside_fold_indicator d t); intro
         end.

(** Find a piece of a concatenation among its pieces. *)
Ltac find_piece :=
  first [ apply contains_refl
        | apply contains_app_l; find_piece
        | apply contains_app_r; find_piece ].

(** *** Numbers

    The model of [repr] on the floats the generators compute, and on a few
    whose shortest decimal form is not their exact value (0.1, 0.1 + 0.2) or
    is printed with an exponent. *)

Lemma float_repr_examples :
  float_repr 4.75 = "4.75"
  /\ float_repr 0.125 = "0.125"
  /\ float_repr (4.75 * 2 + 0.125 * 2) = "9.75"
  /\ float_repr (6.75 + 0.125 * 2) = "7.0"
  /\ float_repr 0x1.999999999999ap-4 = "0.1"
  /\ float_repr (0x1.999999999999ap-4 + 0x1.999999999999ap-3)
     = "0.30000000000000004"
  /\ float_repr 0x1.4f8b588e368f1p-17 = "1e-05"
  /\ float_repr 1e16 = "1e+16"
  /\ float_repr (- 123456789.125) = "-123456789.125".
Proof. repeat split; vm_compute; reflexivity. Qed.

(** *** The shape of the two documents *)

Lemma flat_html_body ppb cw ch bl mk tw th bg fit it id bc :
  ends_with (Flat.html ppb cw ch bl mk tw th bg fit it id bc)
    (flat_body (image_tag it id "Card Front") bc).
Proof.
  unfold Flat.html. find_tail "<body>".
  unfold flat_body, page, image_tag. rewrite !append_assoc. reflexivity.
Qed.

Lemma folded_html_body ppb sw sh bl mk tw th bg fit bpc it id l r ind :
  ends_with (Folded.html ppb sw sh bl mk tw th bg fit bpc it id l r ind)
    (folded_body (outside_spread bpc (image_tag it id "Front Cover"))
                 (inside_spread l r ind)).
Proof.
  unfold Folded.html. find_tail "<body>".
  unfold folded_body, outside_spread, inside_spread, spread, panel, image_tag,
    fold_indicator, document_end.
  rewrite !append_assoc. reflexivity.
Qed.

(** The bleed is one of two numbers, and everything derived from it is
    computed from that number. *)
Lemma flat_bleed_cases settings :
  Flat.bleed settings
  = if truthy (get settings "add_bleed" (VBool false)) then NFloat 0.125 else NInt 0.
Proof. reflexivity. Qed.

Lemma folded_bleed_cases settings :
  Folded.bleed settings
  = if truthy (get settings "add_bleed" (VBool false)) then NFloat 0.125 else NInt 0.
Proof. reflexivity. Qed.

(** Case analysis on [add_bleed], leaving closed numbers behind. *)
Ltac by_add_bleed settings :=
  unfold generate_flat_card_html, generate_folded_card_html,
    Flat.marks, Flat.total_width, Flat.total_height,
    Folded.marks, Folded.total_spread_width, Folded.total_spread_height;
  rewrite ?flat_bleed_cases, ?folded_bleed_cases;
  destruct (truthy (get settings "add_bleed" (VBool false))).

Ltac in_flat_html := unfold Flat.html; hide_values; find_sub.
Ltac in_folded_html := unfold Folded.html; hide_values; find_sub.

(** C1. In both generators the bleed amount is 0.125 inches and the [@page]
    marks value is [crop] when [add_bleed] is true, and they are 0 and [none]
    when it is false (or absent); the marks are [crop] exactly when the bleed
    amount is positive. *)
Theorem bleed_and_marks_follow_add_bleed
    (settings : gmap string value)
    (image_data image_type back_image_data back_image_type
       inside_image_data inside_image_type : value) :
  let add_bleed := truthy (get settings "add_bleed" (VBool false)) in
  let flat :=
    generate_flat_card_html image_data image_type settings
      back_image_data back_image_type in
  let folded :=
    generate_folded_card_html image_data image_type settings
      inside_image_data inside_image_type back_image_data back_image_type in
  Flat.bleed settings = (if add_bleed then NFloat 0.125 else NInt 0)
  /\ Folded.bleed settings = (if add_bleed then NFloat 0.125 else NInt 0)
  /\ Flat.marks settings = (if add_bleed then "crop" else "none")
  /\ Folded.marks settings = (if add_bleed then "crop" else "none")
  /\ contains flat
       (at_page_rule "4.75" "6.75" (if add_bleed then "0.125" else "0")
          (if add_bleed then "crop" else "none"))
  /\ contains folded
       (at_page_rule "9.5" "6.75" (if add_bleed then "0.125" else "0")
          (if add_bleed then "crop" else "none"))
  /\ (Flat.marks settings = "crop" <-> num_gt (Flat.bleed settings) (NInt 0) = true)
  /\ (Folded.marks settings = "crop" <-> num_gt (Folded.bleed settings) (NInt 0) = true).
Proof.
  cbv zeta. split; [reflexivity|]. split; [reflexivity|].
  split; [by_add_bleed settings; vm_compute; reflexivity|].
  split; [by_add_bleed settings; vm_compute; reflexivity|].
  split; [by_add_bleed settings; in_flat_html|].
  split; [by_add_bleed settings; in_folded_html|].
  split; by_add_bleed settings; vm_compute;
    split; intros H; first [reflexivity | discriminate H].
Qed.

(** C4. A folded card's spread is trimmed to 9.5in by 6.75in, and measures
    9.75in by 7.0in with the bleed (9.5in by 6.75in without); the [@page]
    size is the trim size either way, and the content box is moved up and left
    by the bleed and sized to the total. *)
Theorem folded_spread_geometry
    (settings : gmap string value)
    (image_data image_type inside_image_data inside_image_type
       back_image_data back_image_type : value) :
  let add_bleed := truthy (get settings "add_bleed" (VBool false)) in
  let folded :=
    generate_folded_card_html image_data image_type settings
      inside_image_data inside_image_type back_image_data back_image_type in
  Folded.spread_width = NFloat 9.5
  /\ Folded.spread_height = NFloat 6.75
  /\ Folded.total_spread_width settings = NFloat (if add_bleed then 9.75 else 9.5)
  /\ Folded.total_spread_height settings = NFloat (if add_bleed then 7 else 6.75)
  /\ contains folded
       (at_page_rule "9.5" "6.75" (if add_bleed then "0.125" else "0")
          (if add_bleed then "crop" else "none"))
  /\ contains folded
       (content_box "spread-content" (if add_bleed then "0.125" else "0")
          (if add_bleed then "9.75" else "9.5")
          (if add_bleed then "7.0" else "6.75")).
Proof.
  cbv zeta.
  split; [vm_compute; reflexivity|]. split; [reflexivity|].
  split; [by_add_bleed settings; vm_compute; reflexivity|].
  split; [by_add_bleed settings; vm_compute; reflexivity|].
  split; by_add_bleed settings; in_folded_html.
Qed.


Lemma ends_with_refl (x : string) : ends_with x x.
Proof. now exists EmptyString. Qed.


(** C7. The flat card's document ends with the front page followed by the
    back page, the folded card's with the outside spread (back panel, then
    front image, laid out in a row) followed by the inside spread (left, then
    right); the style sheet breaks the page after each page or spread and not
    after the last. *)
Theorem pages_and_spreads_are_sequenced
    (settings : gmap string value)
    (image_data image_type inside_image_data inside_image_type
       back_image_data back_image_type : value) :
  let flat :=
    generate_flat_card_html image_data image_type settings
      back_image_data back_image_type in
  let folded :=
    generate_folded_card_html image_data image_type settings
      inside_image_data inside_image_type back_image_data back_image_type in
  ends_with flat
    (flat_body (image_tag image_type image_data "Card Front")
       (Flat.back_content back_image_data back_image_type))
  /\ contains flat (break_rules "page" "4.75" "6.75")
  /\ ends_with folded
       (folded_body
          (outside_spread
             (Folded.back_panel_content back_image_data back_image_type)
             (image_tag image_type image_data "Front Cover"))
          (inside_spread
             (Folded.inside_left_content inside_image_data inside_image_type)
             (Folded.inside_right_content inside_image_data inside_image_type)
             (Folded.inside_fold_indicator inside_image_data inside_image_type)))
  /\ contains folded (break_rules "spread" "9.5" "6.75")
  /\ contains folded row_layout
  /\ Folded.back_panel_content back_image_data back_image_type
     = (if truthy back_image_data && truthy back_image_type
        then image_tag back_image_type back_image_data "Back Cover"
        else PANEL_4_CONTENT).
Proof.
  cbv zeta.
  split; [apply flat_html_body|].
  split; [by_add_bleed settings; in_flat_html|].
  split; [apply folded_html_body|].
  split; [by_add_bleed settings; in_folded_html|].
  split; [by_add_bleed settings; in_folded_html|].
  unfold Folded.back_panel_content.
  destruct (truthy back_image_data && truthy back_image_type); reflexivity.
Qed.


Lemma folded_contains_outside_spread ppb sw sh bl mk tw th bg fit bpc it id l r ind :
  contains (Folded.html ppb sw sh bl mk tw th bg fit bpc it id l r ind)
    (outside_spread bpc (image_tag it id "Front Cover")).
Proof.
  eapply contains_trans; [apply ends_with_contains, folded_html_body|].
  unfold folded_body. apply contains_app_r, contains_app_l, contains_refl.
Qed.


Lemma folded_ends_with_inside_spread ppb sw sh bl mk tw th bg fit bpc it id l r ind :
  ends_with (Folded.html ppb sw sh bl mk tw th bg fit bpc it id l r ind)
    (inside_spread l r ind +:+ document_end).
Proof.
  destruct (folded_html_body ppb sw sh bl mk tw th bg fit bpc it id l r ind)
    as [pre ->].
  unfold folded_body. do 4 apply ends_with_app. apply ends_with_refl.
Qed.


(** C8. Whatever images are supplied, the outside spread of a folded card
    ends with a fold-indicator element, which the style sheet draws as a
    dashed line. *)
Theorem outside_spread_always_has_fold_indicator
    (settings : gmap string value)
    (image_data image_type inside_image_data inside_image_type
       back_image_data back_image_type : value) :
  let folded :=
    generate_folded_card_html image_data image_type settings
      inside_image_data inside_image_type back_image_data back_image_type in
  let outside :=
    outside_spread (Folded.back_panel_content back_image_data back_image_type)
      (image_tag image_type image_data "Front Cover") in
  contains folded outside
  /\ ends_with outside (fold_indicator +:+ "
    </div>")
  /\ contains outside fold_indicator
  /\ contains folded fold_indicator_rule.
Proof.
  cbv zeta.
  split; [apply folded_contains_outside_spread|].
  assert (E : ends_with
                (outside_spread
                   (Folded.back_panel_content back_image_data back_image_type)
                   (image_tag image_type image_data "Front Cover"))
                (fold_indicator +:+ "
    </div>")).
  { unfold outside_spread, spread. do 5 apply ends_with_app. apply ends_with_refl. }
  split; [exact E|].
  split.
  - eapply contains_trans; [apply ends_with_contains, E|].
    apply contains_app_l, contains_refl.
  - by_add_bleed settings; in_folded_html.
Qed.


(** C3. The inside spread of a folded card, which ends the document: without
    an inside image it holds the two fallback fragments and the fold
    indicator; with one it holds that image twice, showing its right half on
    the left and its left half on the right, and no fold indicator.  An image
    is supplied when its data and its type are both non-empty; its data and
    type hold no markup characters. *)
Theorem inside_spread_follows_inside_image
    (settings : gmap string value)
    (image_data image_type inside_image_data inside_image_type
       back_image_data back_image_type : value) :
  let supplied := truthy inside_image_data && truthy inside_image_type in
  let left := Folded.inside_left_content inside_image_data inside_image_type in
  let right := Folded.inside_right_content inside_image_data inside_image_type in
  let indicator :=
    Folded.inside_fold_indicator inside_image_data inside_image_type in
  ends_with
    (generate_folded_card_html image_data image_type settings
       inside_image_data inside_image_type back_image_data back_image_type)
    (inside_spread left right indicator +:+ document_end)
  /\ (supplied = false ->
      left = INSIDE_LEFT_CONTENT
      /\ right = INSIDE_RIGHT_CONTENT
      /\ indicator = fold_indicator
      /\ contains (inside_spread left right indicator) INSIDE_LEFT_CONTENT
      /\ contains (inside_spread left right indicator) INSIDE_RIGHT_CONTENT
      /\ contains (inside_spread left right indicator) fold_indicator)
  /\ (supplied = true ->
      left = half_image_tag inside_image_type inside_image_data "Inside Left" "right"
      /\ right = half_image_tag inside_image_type inside_image_data "Inside Right" "left"
      /\ indicator = EmptyString
      /\ (markup_free (str inside_image_data) ->
          markup_free (str inside_image_type) ->
          ~ contains (inside_spread left right indicator) fold_indicator)).
Proof.
  cbv zeta. split; [apply folded_ends_with_inside_spread|].
  unfold Folded.inside_left_content, Folded.inside_right_content,
    Folded.inside_fold_indicator.
  split; intros ->.
  - repeat (split; [reflexivity|]).
    unfold inside_spread, spread, panel.
    repeat split; find_piece.
  - repeat (split; [reflexivity|]).
    intros Hd Ht. apply absent_by_markup.
    unfold inside_spread, spread, panel.
    rewrite !keep_app. unfold markup_free in Hd, Ht. rewrite Hd, Ht.
    vm_compute. reflexivity.
Qed.


(** Base64 text holds no markup character: every image the upload form
    encodes is free of them. *)
Lemma b64_char_plain (n : N) : markup_char (b64_char n) = false.
Proof.
  unfold b64_char. generalize (N.to_nat (n mod 64)). intros k.
  do 65 (destruct k as [|k]; [reflexivity|]). reflexivity.
Qed.

Lemma b64encode_markup_free (bs : list byte) : markup_free (b64encode bs).
Proof.
  unfold markup_free.
  remember (length bs) as n eqn:Hn. revert bs Hn.
  induction n as [n IH] using lt_wf_ind.
  intros [|a [|b [|c r]]] Hn; cbn [b64encode keep]; cbv zeta;
    rewrite ?b64_char_plain; try reflexivity.
  apply (IH (length r)); [|reflexivity]. subst n. cbn [length]. lia.
Qed.

Lemma inside_spread_follows_inside_image_witness :
  Folded.inside_fold_indicator inside_data inside_type = EmptyString
  /\ has_sub fold_indicator
       (inside_spread (Folded.inside_left_content inside_data inside_type)
          (Folded.inside_right_content inside_data inside_type)
          (Folded.inside_fold_indicator inside_data inside_type))
     = false
  /\ Folded.inside_fold_indicator VNone VNone = fold_indicator.
Proof.
  destruct (inside_spread_follows_inside_image ∅ (VStr "AAE=") (VStr "png")
              inside_data inside_type VNone VNone) as (_ & _ & Hs).
  destruct (Hs eq_refl) as (_ & _ & Hi & Hn).
  destruct (inside_spread_follows_inside_image ∅ (VStr "AAE=") (VStr "png")
              VNone VNone VNone VNone) as (_ & Hf & _).
  destruct (Hf eq_refl) as (_ & _ & Hj & _).
  split; [exact Hi|]. split; [|exact Hj].
  destruct (has_sub _ _) eqn:E; [|reflexivity].
  exfalso. apply Hn.
  - apply b64encode_markup_free.
  - reflexivity.
  - now apply has_sub_sound.
Defined.

(** *** The colour directive *)

(** Unfold the builder down to the four settings it reads. *)
Ltac open_directive :=
  unfold get_prince_pdf_css, prince_pdf_css, color_options, pdf_profile,
    icc_base64.

(** Evaluate the list operations of the builder, and nothing else. *)
Ltac run_lists := cbn [app truthy_list map join truthy negb].

Lemma get_missing (settings : gmap string value) k dflt :
  settings !! k = None -> get settings k dflt = dflt.
Proof. unfold get. now intros ->. Qed.

Lemma get_present (settings : gmap string value) k dflt v :
  settings !! k = Some v -> get settings k dflt = v.
Proof. unfold get. now intros ->. Qed.

Lemma directive_has_true_black settings :
  truthy (get settings "use_true_black" (VBool true)) = true ->
  contains (get_prince_pdf_css settings)
    "prince-pdf-color-options: use-true-black".
Proof.
  intros H. open_directive. rewrite H.
  destruct (truthy (get settings "pdf_profile" (VStr "PDF/X-4")));
    destruct (truthy (get settings "use_cmyk_colors" (VBool false)));
    destruct (truthy (get settings "icc_base64" VNone));
    run_lists; rewrite ?append_assoc; hide_values; find_sub.
Qed.

(** The profile reader returns the base64 text of the named file. *)
Lemma icc_profile_read dir (fs : gmap string (list byte)) name bytes :
  endswith (lower name) ".icc" = true ->
  fs !! path_join dir name = Some bytes ->
  get_icc_profile_base64 dir fs name = VStr (b64encode bytes).
Proof.
  intros He Hf. unfold get_icc_profile_base64.
  destruct name as [|c name]; [discriminate He|].
  replace (String.eqb (String c name) EmptyString) with false by reflexivity.
  rewrite He. cbn [negb]. now rewrite Hf.
Qed.

(** C5. With profile [PDF/X-1a], both colour options on and an ICC profile
    file of the two bytes [00 01], the directive is the block
    [example_directive]: it holds the profile string, the keywords
    [use-true-black use-cmyk-colors] in that order, and the output intent as
    a data URI of type [application/vnd.iccprofile] with payload [AAE=]. *)
Theorem example_directive_is_built
    (ICC_PROFILES_DIR : string) (fs : gmap string (list byte))
    (profile_name : string) (settings : gmap string value) :
  endswith (lower profile_name) ".icc" = true ->
  fs !! path_join ICC_PROFILES_DIR profile_name = Some [x00; x01] ->
  settings !! "pdf_profile" = Some (VStr "PDF/X-1a") ->
  settings !! "use_true_black" = Some (VBool true) ->
  settings !! "use_cmyk_colors" = Some (VBool true) ->
  settings !! "icc_base64"
  = Some (get_icc_profile_base64 ICC_PROFILES_DIR fs profile_name) ->
  let css := get_prince_pdf_css settings in
  get_icc_profile_base64 ICC_PROFILES_DIR fs profile_name = VStr "AAE="
  /\ css = example_directive
  /\ contains css (q "prince-pdf-profile: `PDF/X-1a`;")
  /\ contains css "prince-pdf-color-options: use-true-black use-cmyk-colors;"
  /\ contains css
       (q "prince-pdf-output-intent: url(`data:application/vnd.iccprofile;base64,AAE=`);").
Proof.
  intros He Hf Hp Hb Hc Hi.
  assert (Hr : get_icc_profile_base64 ICC_PROFILES_DIR fs profile_name
               = VStr "AAE=")
    by (rewrite (icc_profile_read _ _ _ _ He Hf); reflexivity).
  rewrite Hr in Hi.
  assert (E : get_prince_pdf_css settings = example_directive).
  { open_directive.
    rewrite (get_present _ _ _ _ Hp), (get_present _ _ _ _ Hb),
      (get_present _ _ _ _ Hc), (get_present _ _ _ _ Hi).
    vm_compute. reflexivity. }
  cbv zeta. rewrite E. split; [exact Hr|]. split; [reflexivity|].
  repeat split; apply has_sub_sound; vm_compute; reflexivity.
Qed.

Lemma example_directive_is_built_witness :
  get_prince_pdf_css example_settings = example_directive.
Proof.
  apply (example_directive_is_built "/srv/app/icc_profiles" example_store
           "press.icc" example_settings);
    vm_compute; reflexivity.
Defined.

(** C6. With an empty profile string, both colour options false and no ICC
    profile, the builder returns the empty string: no block at all.  A missing
    [use_true_black] is not a false one: the flag is false when the key is
    there with a false value. *)
Theorem empty_settings_give_no_directive (settings : gmap string value) :
  get settings "pdf_profile" (VStr "PDF/X-4") = VStr EmptyString ->
  truthy (get settings "use_true_black" (VBool true)) = false ->
  truthy (get settings "use_cmyk_colors" (VBool false)) = false ->
  truthy (get settings "icc_base64" VNone) = false ->
  get_prince_pdf_css settings = EmptyString.
Proof.
  intros Hp Hb Hc Hi. open_directive. rewrite Hp, Hb, Hc, Hi. reflexivity.
Qed.

Lemma empty_settings_give_no_directive_witness :
  get_prince_pdf_css bare_settings = EmptyString.
Proof.
  apply (empty_settings_give_no_directive bare_settings);
    vm_compute; reflexivity.
Defined.

(** C9. A settings mapping with no [use_true_black] key is read as having it
    true: the keyword is the first colour option and is emitted.  The other
    boolean settings the generators read default to false: a missing
    [use_cmyk_colors] adds no keyword and a missing [add_bleed] gives no
    bleed. *)
Theorem missing_use_true_black_defaults_to_true (settings : gmap string value) :
  settings !! "use_true_black" = None ->
  get settings "use_true_black" (VBool true) = VBool true
  /\ hd_error (color_options settings) = Some "use-true-black"
  /\ contains (get_prince_pdf_css settings)
       "prince-pdf-color-options: use-true-black"
  /\ (settings !! "use_cmyk_colors" = None ->
      color_options settings = ["use-true-black"])
  /\ (settings !! "add_bleed" = None ->
      Flat.bleed settings = NInt 0 /\ Folded.bleed settings = NInt 0).
Proof.
  intros H.
  assert (G : get settings "use_true_black" (VBool true) = VBool true)
    by now apply get_missing.
  split; [exact G|]. split; [|split; [|split]].
  - unfold color_options. rewrite G.
    now destruct (truthy (get settings "use_cmyk_colors" (VBool false))).
  - apply directive_has_true_black. now rewrite G.
  - intros Hc. unfold color_options.
    now rewrite G, (get_missing _ _ _ Hc).
  - intros Ha. unfold Flat.bleed, Folded.bleed.
    now rewrite (get_missing _ _ _ Ha).
Qed.

Lemma missing_use_true_black_defaults_to_true_witness :
  contains (get_prince_pdf_css ∅) "prince-pdf-color-options: use-true-black".
Proof.
  apply (missing_use_true_black_defaults_to_true ∅). reflexivity.
Defined.

(** *** The dispatcher *)

Lemma eq_str_false (v : value) (s : string) : v <> VStr s -> eq_str v s = false.
Proof.
  destruct v as [| | |t]; try reflexivity. intros H. cbn [eq_str].
  apply String.eqb_neq. congruence.
Qed.

Lemma dispatch_not_folded
    (image_data image_type : value) (settings : gmap string value)
    (additional_images : option (gmap string (gmap string value))) :
  get settings "card_type" (VStr "flat") <> VStr "folded" ->
  generate_html_for_image image_data image_type settings additional_images
  = generate_flat_card_html image_data image_type settings
      (image_field (default ∅ additional_images) "back" "data")
      (image_field (default ∅ additional_images) "back" "type").
Proof.
  intros H. unfold generate_html_for_image. cbv zeta.
  now rewrite (eq_str_false _ _ H).
Qed.

(** C2, as the code has it.  Every card type other than [folded], valid or
    not, and a missing one too, gets the flat card's document; [folded] gets
    the folded card's.  No value is rejected. *)
Theorem card_type_other_than_folded_is_flat
    (image_data image_type : value) (settings : gmap string value)
    (additional_images : option (gmap string (gmap string value))) :
  get settings "card_type" (VStr "flat") <> VStr "folded" ->
  generate_html_for_image image_data image_type settings additional_images
  = generate_flat_card_html image_data image_type settings
      (image_field (default ∅ additional_images) "back" "data")
      (image_field (default ∅ additional_images) "back" "type").
Proof. apply dispatch_not_folded. Qed.

Lemma card_type_other_than_folded_is_flat_witness :
  generate_html_for_image (VStr "AAE=") (VStr "png") postcard_settings None
  = generate_flat_card_html (VStr "AAE=") (VStr "png") postcard_settings
      VNone VNone.
Proof.
  apply (card_type_other_than_folded_is_flat (VStr "AAE=") (VStr "png")
           postcard_settings None).
  vm_compute. discriminate.
Defined.

(** C2, refuted as stated: the card type [postcard] is not rejected, and its
    document is the flat card's, with the flat card's page size. *)
Lemma invalid_card_type_is_rendered_as_flat :
  get postcard_settings "card_type" (VStr "flat") = VStr "postcard"
  /\ generate_html_for_image (VStr "AAE=") (VStr "png") postcard_settings None
     = generate_flat_card_html (VStr "AAE=") (VStr "png") flat_settings
         VNone VNone
  /\ has_sub (at_page_rule "4.75" "6.75" "0" "none")
       (generate_html_for_image (VStr "AAE=") (VStr "png") postcard_settings
          None)
     = true.
Proof. repeat split; vm_compute; reflexivity. Qed.

(** C10. For a flat card the document does not depend on the inside image:
    two calls whose additional images agree on the back image give the same
    document. *)
Theorem flat_document_ignores_inside_image
    (image_data image_type : value) (settings : gmap string value)
    (images images' : gmap string (gmap string value)) :
  get settings "card_type" (VStr "flat") = VStr "flat" ->
  images !! "back" = images' !! "back" ->
  generate_html_for_image image_data image_type settings (Some images)
  = generate_html_for_image image_data image_type settings (Some images').
Proof.
  intros Hc Hb.
  rewrite !dispatch_not_folded by (rewrite Hc; discriminate).
  unfold image_field. cbn [from_option id]. now rewrite Hb.
Qed.

Lemma flat_document_ignores_inside_image_witness :
  generate_html_for_image (VStr "AAE=") (VStr "png") flat_settings
    (Some back_only)
  = generate_html_for_image (VStr "AAE=") (VStr "png") flat_settings
      (Some back_and_inside).
Proof.
  apply (flat_document_ignores_inside_image (VStr "AAE=") (VStr "png")
           flat_settings back_only back_and_inside);
    vm_compute; reflexivity.
Defined.

(** ** Further properties *)

Import Web Sheet Profiles Requests.

(** *** The upload check *)

Lemma has_char_app (c : ascii) (a b : string) :
  has_char c (a +:+ b) = has_char c a || has_char c b.
Proof.
  induction a as [|d a IH]; [reflexivity|].
  change (has_char c (String d (a +:+ b))
          = has_char c (String d a) || has_char c b).
  cbn [has_char]. rewrite IH. now destruct (Ascii.eqb d c).
Qed.

Lemma rsplit1_no_sep (c : ascii) (s : string) :
  has_char c s = false -> rsplit1 c s = [s].
Proof.
  induction s as [|d s IH]; [reflexivity|]. cbn [has_char rsplit1].
  intros H. apply orb_false_iff in H as [Hd Hs]. now rewrite (IH Hs), Hd.
Qed.

Lemma rsplit1_last (c : ascii) (a b : string) :
  has_char c b = false -> rsplit1 c (a +:+ String c b) = [a; b].
Proof.
  intros Hb. induction a as [|d a IH].
  - change (rsplit1 c (String c b) = [EmptyString; b]). cbn [rsplit1].
    now rewrite (rsplit1_no_sep _ _ Hb), Ascii.eqb_refl.
  - change (rsplit1 c (String d (a +:+ String c b)) = [String d a; b]).
    cbn [rsplit1]. now rewrite IH.
Qed.

Lemma rsplit1_sep (c : ascii) (s : string) :
  has_char c s = true ->
  exists a b, s = a +:+ String c b /\ has_char c b = false.
Proof.
  induction s as [|d s IH]; [discriminate|]. cbn [has_char]. intros H.
  destruct (has_char c s) eqn:Hs.
  - destruct (IH eq_refl) as (a & b & -> & Hb). now exists (String d a), b.
  - rewrite orb_false_r in H. apply Ascii.eqb_eq in H as ->.
    now exists EmptyString, s.
Qed.

Lemma allowed_file_split (filename : string) :
  allowed_file filename = true ->
  exists base ext,
    filename = base +:+ String "." ext
    /\ has_char "." ext = false
    /\ lower ext ∈ ALLOWED_EXTENSIONS.
Proof.
  unfold allowed_file. intros H. apply andb_true_iff in H as [Hd He].
  destruct (rsplit1_sep _ _ Hd) as (a & b & -> & Hb).
  rewrite (rsplit1_last _ _ _ Hb) in He. cbn in He.
  apply bool_decide_eq_true in He. now exists a, b.
Qed.

(** X1. A file name passes the upload check exactly when it has a dot and the
    text after its last dot is, in lower case, one of the seven extensions. *)
Theorem allowed_file_iff (filename : string) :
  allowed_file filename = true <->
  exists base ext,
    filename = base +:+ "." +:+ ext
    /\ has_char "." ext = false
    /\ lower ext ∈ ALLOWED_EXTENSIONS.
Proof.
  split; [apply allowed_file_split|].
  intros (a & b & -> & Hb & He). unfold allowed_file.
  change (a +:+ "." +:+ b) with (a +:+ String "." b).
  rewrite (rsplit1_last _ _ _ Hb), has_char_app. cbn.
  rewrite orb_true_r. now apply bool_decide_eq_true.
Qed.

Lemma image_type_allowed (filename : string) :
  allowed_file filename = true ->
  exists image_type,
    image_type_of filename = Some image_type
    /\ In image_type ["png"; "jpeg"; "gif"; "webp"; "tiff"; "tif"].
Proof.
  intros H. apply allowed_file_split in H as (a & b & -> & Hb & He).
  unfold image_type_of.
  rewrite (rsplit1_last _ _ _ Hb). cbn [lookup list_lookup mbind option_bind].
  unfold ALLOWED_EXTENSIONS in He. set_unfold in He.
  eexists. split; [reflexivity|].
  destruct He as [[[[[[He|He]|He]|He]|He]|He]|He]; rewrite He; cbn; tauto.
Qed.

(** X2. An accepted file is embedded under one of six image types, never
    under [jpg], and the type holds no markup character; extracting it
    cannot fail. *)
Theorem accepted_image_type (filename : string) :
  allowed_file filename = true ->
  exists image_type,
    image_type_of filename = Some image_type
    /\ In image_type ["png"; "jpeg"; "gif"; "webp"; "tiff"; "tif"]
    /\ markup_free image_type.
Proof.
  intros H. destruct (image_type_allowed _ H) as (t & Ht & Hin).
  exists t. split; [exact Ht|]. split; [exact Hin|].
  cbn [In] in Hin.
  repeat (destruct Hin as [<-|Hin]; [reflexivity|]). destruct Hin.
Qed.

Lemma accepted_image_type_witness :
  exists image_type,
    image_type_of "Photo.JPG" = Some image_type
    /\ In image_type ["png"; "jpeg"; "gif"; "webp"; "tiff"; "tif"]
    /\ markup_free image_type.
Proof. apply (accepted_image_type "Photo.JPG"). vm_compute. reflexivity. Defined.

(** *** The preview handler *)

Lemma encode_image_allowed (file : upload) :
  allowed_file (filename file) = true ->
  exists image_type,
    image_type_of (filename file) = Some image_type
    /\ encode_image file
       = Some (VStr (b64encode (content file)), VStr image_type).
Proof.
  intros H. destruct (image_type_allowed _ H) as (t & Ht & _).
  exists t. split; [exact Ht|]. unfold encode_image. now rewrite Ht.
Qed.

Lemma optional_image_some (rq : request) (field : string) :
  exists r, optional_image rq field = Some r.
Proof.
  unfold optional_image. destruct (files rq !! field) as [file|]; [|eauto].
  destruct (negb _) ; cbn [andb]; [|eauto].
  destruct (allowed_file (filename file)) eqn:Ha; [|eauto].
  destruct (encode_image_allowed _ Ha) as (t & _ & ->). cbn. eauto.
Qed.

Lemma collect_additional_images_some (rq : request) (card_type : string) :
  exists images, collect_additional_images rq card_type = Some images.
Proof.
  unfold collect_additional_images. cbv zeta.
  destruct (form_flag rq "provide_all_images"); [|eauto].
  destruct (optional_image_some rq "back_image") as (b & ->). cbn.
  destruct (String.eqb card_type "folded"); [|eauto].
  destruct (optional_image_some rq "inside_image") as (i & ->). cbn. eauto.
Qed.

Section preview.

Variable ICC_PROFILES_DIR : string.
Variable fs : gmap string (list byte).
Variable allowed_order : list string.

Local Abbreviation preview := (preview_html ICC_PROFILES_DIR fs allowed_order).

Lemma preview_html_accepted (rq : request) (file : upload) :
  files rq !! "image" = Some file ->
  filename file <> EmptyString ->
  allowed_file (filename file) = true ->
  exists image_type images,
    image_type_of (filename file) = Some image_type
    /\ collect_additional_images rq (form_get rq "card_type" "flat")
       = Some images
    /\ preview rq
       = Json 200 "html"
           (generate_html_for_image (VStr (b64encode (content file)))
              (VStr image_type)
              (preview_settings rq (form_get rq "card_type" "flat")
                 (selected_icc ICC_PROFILES_DIR fs rq))
              (Some images)).
Proof.
  intros Hf Hn Ha.
  destruct (encode_image_allowed _ Ha) as (t & Ht & He).
  destruct (collect_additional_images_some rq (form_get rq "card_type" "flat"))
    as (images & Hc).
  exists t, images. split; [exact Ht|]. split; [exact Hc|].
  unfold preview_html. rewrite Hf.
  apply String.eqb_neq in Hn. rewrite Hn, Ha. cbn [negb].
  now rewrite He, Hc.
Qed.


(** The handler reads the request through the form, the front image and the
    additional images it collects. *)
Lemma preview_html_reads (rq rq' : request) :
  form rq = form rq' ->
  files rq !! "image" = files rq' !! "image" ->
  collect_additional_images rq (form_get rq "card_type" "flat")
  = collect_additional_images rq' (form_get rq' "card_type" "flat") ->
  preview rq = preview rq'.
Proof.
  intros Hform Himg Hc. unfold preview_html, selected_icc, preview_settings,
    form_get, form_flag in *.
  now rewrite Hform, Himg, Hc in *.
Qed.

(** X4. Without the [provide_all_images] flag the back and inside images are
    not read: two requests with the same form and the same front image get the
    same answer. *)
Theorem preview_html_without_flag (rq rq' : request) :
  form_flag rq "provide_all_images" = false ->
  form rq = form rq' ->
  files rq !! "image" = files rq' !! "image" ->
  preview rq = preview rq'.
Proof.
  intros Hflag Hform Himg. apply preview_html_reads; try assumption.
  unfold collect_additional_images, form_flag in *.
  rewrite <- Hform. now rewrite Hflag.
Qed.

(** X5. Unless the card type is [folded] the inside image is not read, flag
    or no flag: two requests with the same form, front image and back image
    get the same answer. *)
Theorem preview_html_inside_only_folded (rq rq' : request) :
  form_get rq "card_type" "flat" <> "folded" ->
  form rq = form rq' ->
  files rq !! "image" = files rq' !! "image" ->
  files rq !! "back_image" = files rq' !! "back_image" ->
  preview rq = preview rq'.
Proof.
  intros Hct Hform Himg Hback. apply preview_html_reads; try assumption.
  unfold collect_additional_images, optional_image, form_flag, form_get in *.
  rewrite <- Hform, <- Hback. apply String.eqb_neq in Hct. now rewrite Hct.
Qed.

(** X6. A back image that is unnamed or of a type that is not allowed is
    passed over without an error: the answer is the one for the request
    without it. *)
Theorem preview_html_skips_bad_back_image (rq : request) (file : upload) :
  files rq !! "back_image" = Some file ->
  filename file = EmptyString \/ allowed_file (filename file) = false ->
  preview rq = preview (Request (delete "back_image" (files rq)) (form rq)).
Proof.
  intros Hb Hbad. apply preview_html_reads; cbn [files form].
  - reflexivity.
  - now rewrite lookup_delete_ne.
  - unfold collect_additional_images, optional_image, form_flag, form_get.
    cbn [files form]. rewrite Hb, lookup_delete_eq, lookup_delete_ne by done.
    assert (E : negb (String.eqb (filename file) EmptyString)
                && allowed_file (filename file) = false).
    { destruct Hbad as [->| ->]; [reflexivity|apply andb_false_r]. }
    now rewrite E.
Qed.

End preview.

Lemma preview_html_without_flag_witness :
  preview_html profiles_dir example_store extension_order
    (front_and "back_image" back_photo postcard)
  = preview_html profiles_dir example_store extension_order
      (front_only postcard).
Proof.
  apply (preview_html_without_flag profiles_dir example_store extension_order
           (front_and "back_image" back_photo postcard) (front_only postcard));
    vm_compute; reflexivity.
Defined.

Lemma preview_html_inside_only_folded_witness :
  preview_html profiles_dir example_store extension_order
    (front_and "inside_image" back_photo all_images)
  = preview_html profiles_dir example_store extension_order
      (front_only all_images).
Proof.
  apply (preview_html_inside_only_folded profiles_dir example_store
           extension_order (front_and "inside_image" back_photo all_images)
           (front_only all_images));
    vm_compute; first [reflexivity | discriminate].
Defined.

Lemma preview_html_skips_bad_back_image_witness :
  preview_html profiles_dir example_store extension_order
    (front_and "back_image" notes all_images)
  = preview_html profiles_dir example_store extension_order
      (Request (delete "back_image"
                  (files (front_and "back_image" notes all_images)))
         all_images).
Proof.
  apply (preview_html_skips_bad_back_image profiles_dir example_store
           extension_order (front_and "back_image" notes all_images) notes).
  - vm_compute. reflexivity.
  - right. vm_compute. reflexivity.
Defined.

(** *** What the generators read of the settings *)

(** X7. Both generators depend on the settings through seven keys only:
    settings that agree on them give the same documents. *)
Theorem documents_depend_on_seven_settings
    (settings settings' : gmap string value)
    (image_data image_type inside_image_data inside_image_type
       back_image_data back_image_type : value) :
  (forall k,
      In k ["pdf_profile"; "use_true_black"; "use_cmyk_colors"; "icc_base64";
            "add_bleed"; "image_fit"; "background_color"] ->
      settings !! k = settings' !! k) ->
  generate_flat_card_html image_data image_type settings
    back_image_data back_image_type
  = generate_flat_card_html image_data image_type settings'
      back_image_data back_image_type
  /\ generate_folded_card_html image_data image_type settings
       inside_image_data inside_image_type back_image_data back_image_type
     = generate_folded_card_html image_data image_type settings'
         inside_image_data inside_image_type back_image_data back_image_type.
Proof.
  intros H.
  assert (H1 := H "pdf_profile"). assert (H2 := H "use_true_black").
  assert (H3 := H "use_cmyk_colors"). assert (H4 := H "icc_base64").
  assert (H5 := H "add_bleed"). assert (H6 := H "image_fit").
  assert (H7 := H "background_color"). cbn [In] in *.
  unfold generate_flat_card_html, generate_folded_card_html,
    get_prince_pdf_css, prince_pdf_css, color_options, pdf_profile, icc_base64,
    Flat.bleed, Flat.marks, Flat.total_width, Flat.total_height,
    Flat.bg_color, Flat.fit_mode, Flat.bleed,
    Folded.bleed, Folded.marks, Folded.total_spread_width,
    Folded.total_spread_height, Folded.bg_color, Folded.fit_mode,
    Folded.bleed, get.
  rewrite H1, H2, H3, H4, H5, H6, H7 by tauto. split; reflexivity.
Qed.

Lemma documents_depend_on_seven_settings_witness :
  generate_flat_card_html (VStr "AAE=") (VStr "png") flat_settings VNone VNone
  = generate_flat_card_html (VStr "AAE=") (VStr "png") postcard_settings
      VNone VNone
  /\ generate_folded_card_html (VStr "AAE=") (VStr "png") flat_settings
       VNone VNone VNone VNone
     = generate_folded_card_html (VStr "AAE=") (VStr "png") postcard_settings
         VNone VNone VNone VNone.
Proof.
  apply (documents_depend_on_seven_settings flat_settings postcard_settings).
  intros k Hk. cbn [In] in Hk.
  repeat (destruct Hk as [<-|Hk]; [vm_compute; reflexivity|]).
  destruct Hk.
Defined.

(** Read a key of the settings a handler builds. *)
Ltac read_settings :=
  unfold generate_pdf_settings, preview_settings, get;
  repeat first [ rewrite lookup_insert_eq
               | rewrite lookup_insert_ne by done
               | rewrite lookup_singleton_eq
               | rewrite lookup_singleton_ne by done ].

(** X8. Through either handler the colour options are the form's: a keyword
    is emitted exactly when its field is [true].  A request without a
    [use_true_black] field gets no [use-true-black], the builder's own
    default notwithstanding. *)
Theorem form_flags_decide_color_options
    (rq : request) (card_type : string) (icc_base64 : value) :
  let options :=
    (if form_flag rq "use_true_black" then ["use-true-black"] else [])
    ++ (if form_flag rq "use_cmyk_colors" then ["use-cmyk-colors"] else []) in
  color_options (preview_settings rq card_type icc_base64) = options
  /\ color_options (generate_pdf_settings rq card_type icc_base64) = options
  /\ (form rq !! "use_true_black" = None -> ~ In "use-true-black" options).
Proof.
  cbv zeta. unfold color_options. read_settings. cbn [truthy].
  split; [|split].
  - now destruct (form_flag rq "use_true_black"),
      (form_flag rq "use_cmyk_colors").
  - now destruct (form_flag rq "use_true_black"),
      (form_flag rq "use_cmyk_colors").
  - intros H. unfold form_flag. rewrite H.
    rewrite bool_decide_eq_false_2 by discriminate.
    destruct (bool_decide _); cbn; intuition discriminate.
Qed.

(** *** What the dispatcher reads of the settings *)

Lemma generators_read_directive
    (settings settings' : gmap string value)
    (image_data image_type inside_image_data inside_image_type
       back_image_data back_image_type : value) :
  (forall k, In k ["add_bleed"; "image_fit"; "background_color"] ->
             settings !! k = settings' !! k) ->
  get_prince_pdf_css settings = get_prince_pdf_css settings' ->
  generate_flat_card_html image_data image_type settings
    back_image_data back_image_type
  = generate_flat_card_html image_data image_type settings'
      back_image_data back_image_type
  /\ generate_folded_card_html image_data image_type settings
       inside_image_data inside_image_type back_image_data back_image_type
     = generate_folded_card_html image_data image_type settings'
         inside_image_data inside_image_type back_image_data back_image_type.
Proof.
  intros H Hcss.
  assert (H5 := H "add_bleed"). assert (H6 := H "image_fit").
  assert (H7 := H "background_color"). cbn [In] in *.
  unfold generate_flat_card_html, generate_folded_card_html,
    Flat.bleed, Flat.marks, Flat.total_width, Flat.total_height,
    Flat.bg_color, Flat.fit_mode, Flat.bleed,
    Folded.bleed, Folded.marks, Folded.total_spread_width,
    Folded.total_spread_height, Folded.bg_color, Folded.fit_mode,
    Folded.bleed, get.
  rewrite Hcss, H5, H6, H7 by tauto. split; reflexivity.
Qed.

Lemma html_for_image_reads
    (settings settings' : gmap string value) (image_data image_type : value)
    (additional_images : option (gmap string (gmap string value))) :
  eq_str (get settings "card_type" (VStr "flat")) "folded"
  = eq_str (get settings' "card_type" (VStr "flat")) "folded" ->
  (forall k, In k ["add_bleed"; "image_fit"; "background_color"] ->
             settings !! k = settings' !! k) ->
  get_prince_pdf_css settings = get_prince_pdf_css settings' ->
  generate_html_for_image image_data image_type settings additional_images
  = generate_html_for_image image_data image_type settings' additional_images.
Proof.
  intros Hc H Hcss. unfold generate_html_for_image. cbv zeta. rewrite Hc.
  destruct (generators_read_directive settings settings' image_data image_type
              (image_field (default ∅ additional_images) "inside" "data")
              (image_field (default ∅ additional_images) "inside" "type")
              (image_field (default ∅ additional_images) "back" "data")
              (image_field (default ∅ additional_images) "back" "type")
              H Hcss) as [E1 E2].
  destruct (eq_str (get settings' "card_type" (VStr "flat")) "folded");
    [exact E2|exact E1].
Qed.

(** The directive reads the ICC data only when it is truthy. *)
Lemma directive_reads (settings settings' : gmap string value) :
  (forall k, In k ["pdf_profile"; "use_true_black"; "use_cmyk_colors"] ->
             settings !! k = settings' !! k) ->
  settings !! "icc_base64" = settings' !! "icc_base64"
  \/ (truthy (get settings "icc_base64" VNone) = false
      /\ truthy (get settings' "icc_base64" VNone) = false) ->
  get_prince_pdf_css settings = get_prince_pdf_css settings'.
Proof.
  intros H Hicc.
  assert (H1 := H "pdf_profile"). assert (H2 := H "use_true_black").
  assert (H3 := H "use_cmyk_colors"). cbn [In] in *.
  assert (E : prince_pdf_css settings = prince_pdf_css settings').
  { unfold prince_pdf_css, color_options, pdf_profile, icc_base64.
    destruct Hicc as [H4|[H4 H4']].
    - unfold get. now rewrite H1, H2, H3, H4 by tauto.
    - rewrite H4, H4'. unfold get. now rewrite H1, H2, H3 by tauto. }
  unfold get_prince_pdf_css. now rewrite E.
Qed.

Section preview_documents.

Variable ICC_PROFILES_DIR : string.
Variable fs : gmap string (list byte).
Variable allowed_order : list string.

Local Abbreviation preview := (preview_html ICC_PROFILES_DIR fs allowed_order).

(** X9. The handler does not check the card type either: a request whose
    [card_type] field is anything but [folded] is answered as the same
    request with [card_type] set to [flat]. *)
Theorem preview_html_takes_any_card_type (rq : request) (card_type : string) :
  form rq !! "card_type" = Some card_type ->
  card_type <> "folded" ->
  preview rq
  = preview (Request (files rq) (<["card_type" := "flat"]> (form rq))).
Proof.
  intros Hc Hne. unfold preview_html. cbn [files form].
  destruct (files rq !! "image") as [file|]; [|reflexivity].
  destruct (String.eqb (filename file) EmptyString); [reflexivity|].
  destruct (negb (allowed_file (filename file))); [reflexivity|].
  destruct (encode_image file) as [[data type]|]; [|reflexivity].
  assert (E1 : form_get rq "card_type" "flat" = card_type).
  { unfold form_get. now rewrite Hc. }
  assert (E2 : form_get
                 (Request (files rq) (<["card_type" := "flat"]> (form rq)))
                 "card_type" "flat" = "flat").
  { unfold form_get. cbn [form]. now rewrite lookup_insert_eq. }
  rewrite E1, E2.
  assert (Ec : collect_additional_images
                 (Request (files rq) (<["card_type" := "flat"]> (form rq)))
                 "flat"
               = collect_additional_images rq card_type).
  { unfold collect_additional_images, optional_image, form_flag.
    cbn [files form]. rewrite lookup_insert_ne by done.
    apply String.eqb_neq in Hne. now rewrite Hne. }
  rewrite Ec. destruct (collect_additional_images rq card_type); [|reflexivity].
  apply (f_equal (Json 200 "html")).
  apply html_for_image_reads.
  - read_settings. cbn [default from_option id eq_str].
    apply String.eqb_neq in Hne. now rewrite Hne.
  - intros k Hk. cbn [In] in Hk.
    repeat (destruct Hk as [<-|Hk];
            [read_settings; unfold form_get, form_flag; cbn [form];
             now rewrite ?lookup_insert_ne by done|]).
    destruct Hk.
  - apply directive_reads.
    + intros k Hk. cbn [In] in Hk.
      repeat (destruct Hk as [<-|Hk];
              [read_settings; unfold form_get, form_flag; cbn [form];
               now rewrite ?lookup_insert_ne by done|]).
      destruct Hk.
    + left. read_settings. unfold selected_icc, form_get. cbn [form].
      now rewrite lookup_insert_ne by done.
Qed.


End preview_documents.

Lemma preview_html_takes_any_card_type_witness :
  preview_html profiles_dir example_store extension_order (front_only postcard)
  = preview_html profiles_dir example_store extension_order
      (Request (files (front_only postcard))
         (<["card_type" := "flat"]> postcard)).
Proof.
  apply (preview_html_takes_any_card_type profiles_dir example_store
           extension_order (front_only postcard) "postcard").
  - vm_compute. reflexivity.
  - discriminate.
Defined.


(** *** The flat card's geometry, and the style settings *)

Lemma contains_head (t x post : string) :
  ends_with t (x +:+ post) -> contains t x.
Proof. intros [pre ->]. now exists pre, post. Qed.

(** Find a text with values in it: cut the document where the text starts,
    and compare from there. *)
Ltac find_from marker :=
  eapply contains_head; find_tail marker; rewrite ?append_assoc; reflexivity.

(** X11. A flat card is trimmed to 4.75in by 6.75in and measures 5.0in by
    7.0in with the bleed; the content boxes of both pages are moved up and
    left by the bleed and sized to the total. *)
Theorem flat_card_geometry
    (settings : gmap string value)
    (image_data image_type back_image_data back_image_type : value) :
  let add_bleed := truthy (get settings "add_bleed" (VBool false)) in
  let flat :=
    generate_flat_card_html image_data image_type settings
      back_image_data back_image_type in
  Flat.total_width settings = NFloat (if add_bleed then 5 else 4.75)
  /\ Flat.total_height settings = NFloat (if add_bleed then 7 else 6.75)
  /\ contains flat
       (content_box "page-content" (if add_bleed then "0.125" else "0")
          (if add_bleed then "5.0" else "4.75")
          (if add_bleed then "7.0" else "6.75"))
  /\ contains flat
       (content_box "back-page-content" (if add_bleed then "0.125" else "0")
          (if add_bleed then "5.0" else "4.75")
          (if add_bleed then "7.0" else "6.75")).
Proof.
  cbv zeta.
  split; [by_add_bleed settings; vm_compute; reflexivity|].
  split; [by_add_bleed settings; vm_compute; reflexivity|].
  split; by_add_bleed settings; in_flat_html.
Qed.

(** X12. The [image_fit] and [background_color] settings are written into the
    style sheet as they are, [cover] and [#ffffff] standing in for a missing
    one: the image rule of both documents has the fit, and the content box of
    each has the background. *)
Theorem styles_follow_settings
    (settings : gmap string value)
    (image_data image_type inside_image_data inside_image_type
       back_image_data back_image_type : value) :
  let add_bleed := truthy (get settings "add_bleed" (VBool false)) in
  let fit := str (get settings "image_fit" (VStr "cover")) in
  let color := str (get settings "background_color" (VStr "#ffffff")) in
  let bleed := if add_bleed then "0.125" else "0" in
  let flat :=
    generate_flat_card_html image_data image_type settings
      back_image_data back_image_type in
  let folded :=
    generate_folded_card_html image_data image_type settings
      inside_image_data inside_image_type back_image_data back_image_type in
  contains flat (image_rule fit)
  /\ contains folded (image_rule fit)
  /\ contains flat
       (content_box "page-content" bleed
          (if add_bleed then "5.0" else "4.75")
          (if add_bleed then "7.0" else "6.75")
        +:+ background color)
  /\ contains flat
       (content_box "back-page-content" bleed
          (if add_bleed then "5.0" else "4.75")
          (if add_bleed then "7.0" else "6.75")
        +:+ background color)
  /\ contains folded
       (content_box "spread-content" bleed
          (if add_bleed then "9.75" else "9.5")
          (if add_bleed then "7.0" else "6.75")
        +:+ "
            " +:+ row_layout +:+ background color).
Proof.
  cbv zeta. unfold Flat.fit_mode, Flat.bg_color, Folded.fit_mode,
    Folded.bg_color.
  split; [by_add_bleed settings;
          unfold Flat.html, Flat.fit_mode, image_rule;
          hide_values; find_from ".image {"|].
  split; [by_add_bleed settings;
          unfold Folded.html, Folded.fit_mode, image_rule;
          hide_values; find_from ".image {"|].
  split; [by_add_bleed settings;
          unfold Flat.html, Flat.bg_color, content_box, background;
          hide_values; find_from ".page-content {"|].
  split; [by_add_bleed settings;
          unfold Flat.html, Flat.bg_color, content_box, background;
          hide_values; find_from ".back-page-content {"|].
  by_add_bleed settings;
    unfold Folded.html, Folded.bg_color, content_box, background, row_layout;
    hide_values; find_from ".spread-content {".
Qed.

(** *** The images of a request, in the document *)

Lemma accepted_type_truthy (name image_type : string) :
  allowed_file name = true ->
  image_type_of name = Some image_type ->
  truthy (VStr image_type) = true.
Proof.
  intros Ha Ht. destruct (image_type_allowed _ Ha) as (t & Ht' & Hin).
  rewrite Ht in Ht'. injection Ht' as <-. cbn [In] in Hin.
  repeat (destruct Hin as [<-|Hin]; [reflexivity|]). destruct Hin.
Qed.

Lemma b64encode_empty (bs : list byte) :
  b64encode bs = EmptyString <-> bs = [].
Proof.
  split; [|now intros ->].
  destruct bs as [|a [|b [|c r]]]; [reflexivity|discriminate..].
Qed.

Lemma truthy_b64encode (bs : list byte) :
  truthy (VStr (b64encode bs)) = negb (bool_decide (bs = [])).
Proof.
  destruct bs as [|a [|b [|c r]]]; reflexivity.
Qed.

Lemma html_for_image_front
    (image_data image_type : value) (settings : gmap string value)
    (additional_images : option (gmap string (gmap string value))) :
  contains
    (generate_html_for_image image_data image_type settings additional_images)
    (image_tag image_type image_data
       (if eq_str (get settings "card_type" (VStr "flat")) "folded"
        then "Front Cover" else "Card Front")).
Proof.
  unfold generate_html_for_image. cbv zeta.
  destruct (eq_str _ "folded").
  - eapply contains_trans; [apply folded_contains_outside_spread|].
    unfold outside_spread, spread, panel. find_piece.
  - eapply contains_trans; [apply ends_with_contains, flat_html_body|].
    unfold flat_body, page. find_piece.
Qed.

Lemma html_for_image_back
    (image_data image_type : value) (settings : gmap string value)
    (additional_images : option (gmap string (gmap string value))) :
  let back_data := image_field (default ∅ additional_images) "back" "data" in
  let back_type := image_field (default ∅ additional_images) "back" "type" in
  contains
    (generate_html_for_image image_data image_type settings additional_images)
    (if eq_str (get settings "card_type" (VStr "flat")) "folded"
     then Folded.back_panel_content back_data back_type
     else Flat.back_content back_data back_type).
Proof.
  cbv zeta. unfold generate_html_for_image. cbv zeta.
  destruct (eq_str _ "folded").
  - eapply contains_trans; [apply folded_contains_outside_spread|].
    unfold outside_spread, spread, panel. find_piece.
  - eapply contains_trans; [apply ends_with_contains, flat_html_body|].
    unfold flat_body, page. find_piece.
Qed.

Section preview_images.

Variable ICC_PROFILES_DIR : string.
Variable fs : gmap string (list byte).
Variable allowed_order : list string.

Local Abbreviation preview := (preview_html ICC_PROFILES_DIR fs allowed_order).

(** X13. The document of an accepted request embeds the front image: its
    bytes in base64, under its extension in lower case ([jpeg] for [jpg]),
    as the front cover of a folded card and the front of any other. *)
Theorem preview_html_embeds_front_image (rq : request) (file : upload) :
  files rq !! "image" = Some file ->
  filename file <> EmptyString ->
  allowed_file (filename file) = true ->
  exists image_type html,
    image_type_of (filename file) = Some image_type
    /\ preview rq = Json 200 "html" html
    /\ contains html
         (image_tag (VStr image_type) (VStr (b64encode (content file)))
            (if String.eqb (form_get rq "card_type" "flat") "folded"
             then "Front Cover" else "Card Front")).
Proof.
  intros Hf Hn Ha.
  destruct (preview_html_accepted ICC_PROFILES_DIR fs allowed_order
              rq file Hf Hn Ha) as (t & images & Ht & _ & ->).
  exists t. eexists. split; [exact Ht|]. split; [reflexivity|].
  eapply eq_ind; [apply html_for_image_front|].
  now read_settings.
Qed.

(** X14. With the [provide_all_images] flag, a named back image of an
    allowed type takes the place of the back placeholder, unless the file is
    empty: an image of no bytes is passed over, as if none had been sent. *)
Theorem preview_html_embeds_back_image (rq : request) (file back : upload) :
  files rq !! "image" = Some file ->
  filename file <> EmptyString ->
  allowed_file (filename file) = true ->
  form_flag rq "provide_all_images" = true ->
  files rq !! "back_image" = Some back ->
  filename back <> EmptyString ->
  allowed_file (filename back) = true ->
  let folded := String.eqb (form_get rq "card_type" "flat") "folded" in
  exists back_type html,
    image_type_of (filename back) = Some back_type
    /\ preview rq = Json 200 "html" html
    /\ contains html
         (if bool_decide (content back = [])
          then if folded then PANEL_4_CONTENT else BACK_PANEL_CONTENT
          else image_tag (VStr back_type) (VStr (b64encode (content back)))
                 (if folded then "Back Cover" else "Card Back")).
Proof.
  intros Hf Hn Ha Hflag Hb Hbn Hba. cbv zeta.
  destruct (preview_html_accepted ICC_PROFILES_DIR fs allowed_order
              rq file Hf Hn Ha) as (t & images & _ & Hc & ->).
  destruct (encode_image_allowed _ Hba) as (bt & Hbt & Hbe).
  exists bt. eexists. split; [exact Hbt|]. split; [reflexivity|].
  assert (Hi : images !! "back"
               = Some (<["data" := VStr (b64encode (content back))]>
                         {[ "type" := VStr bt ]})).
  { unfold collect_additional_images, optional_image in Hc.
    rewrite Hflag, Hb, Hba in Hc. apply String.eqb_neq in Hbn.
    rewrite Hbn, Hbe in Hc. cbn in Hc.
    destruct (String.eqb (form_get rq "card_type" "flat") "folded").
    - destruct (optional_image_some rq "inside_image") as (i & Hi).
      unfold optional_image in Hi. rewrite Hi in Hc. cbn in Hc.
      injection Hc as <-. destruct i.
      + rewrite lookup_insert_ne by done. apply lookup_insert_eq.
      + apply lookup_insert_eq.
    - injection Hc as <-. apply lookup_insert_eq. }
  eapply eq_ind; [apply html_for_image_back|].
  unfold image_field. cbn [default from_option id]. rewrite Hi.
  cbn [default from_option id].
  rewrite lookup_insert_eq, lookup_insert_ne, lookup_singleton_eq by done.
  cbn [default from_option id].
  unfold Folded.back_panel_content, Flat.back_content.
  rewrite truthy_b64encode, (accepted_type_truthy _ _ Hba Hbt).
  read_settings. cbn [default from_option id eq_str].
  destruct (bool_decide (content back = [])),
    (String.eqb (form_get rq "card_type" "flat") "folded"); reflexivity.
Qed.

End preview_images.

Lemma preview_html_embeds_front_image_witness :
  exists image_type html,
    image_type_of "Photo.JPG" = Some image_type
    /\ preview_html profiles_dir example_store extension_order
         (front_only postcard)
       = Json 200 "html" html
    /\ contains html
         (image_tag (VStr image_type) (VStr (b64encode [x4d; x61; x6e]))
            "Card Front").
Proof.
  apply (preview_html_embeds_front_image profiles_dir example_store
           extension_order (front_only postcard) photo).
  - vm_compute. reflexivity.
  - discriminate.
  - vm_compute. reflexivity.
Defined.

Lemma preview_html_embeds_back_image_witness :
  exists back_type html,
    image_type_of "back.png" = Some back_type
    /\ preview_html profiles_dir example_store extension_order
         (front_and "back_image" back_photo all_images)
       = Json 200 "html" html
    /\ contains html
         (image_tag (VStr back_type) (VStr (b64encode [x00; x01]))
            "Card Back").
Proof.
  apply (preview_html_embeds_back_image profiles_dir example_store
           extension_order (front_and "back_image" back_photo all_images)
           photo back_photo).
  - vm_compute. reflexivity.
  - discriminate.
  - vm_compute. reflexivity.
  - vm_compute. reflexivity.
  - vm_compute. reflexivity.
  - discriminate.
  - vm_compute. reflexivity.
Defined.

(** *** The profile reader *)

Lemma lower_app (a b : string) : lower (a +:+ b) = lower a +:+ lower b.
Proof.
  induction a as [|c a IH]; [reflexivity|].
  change (String (lower_ascii c) (lower (a +:+ b))
          = String (lower_ascii c) (lower a +:+ lower b)).
  now rewrite IH.
Qed.

Lemma length_app (a b : string) :
  String.length (a +:+ b) = (String.length a + String.length b)%nat.
Proof.
  induction a as [|c a IH]; [reflexivity|].
  change (S (String.length (a +:+ b)) = S (String.length a + String.length b)).
  now rewrite IH.
Qed.

Lemma substring_all (x : string) :
  String.substring 0 (String.length x) x = x.
Proof.
  induction x as [|c x IH]; [reflexivity|]. cbn. now rewrite IH.
Qed.

Lemma substring_app (a x : string) :
  String.substring (String.length a) (String.length x) (a +:+ x) = x.
Proof.
  induction a as [|c a IH]; [apply substring_all|exact IH].
Qed.

Lemma endswith_app (a x : string) : endswith (a +:+ x) x = true.
Proof.
  unfold endswith. cbv zeta. rewrite length_app.
  replace (String.length a + String.length x - String.length x)%nat
    with (String.length a) by lia.
  rewrite substring_app, String.eqb_refl, andb_true_r.
  apply Nat.leb_le. lia.
Qed.

Lemma app_not_empty (a : string) : a +:+ ".icc" <> EmptyString.
Proof. now destruct a. Qed.

Lemma profile_extension_reads
    (ICC_PROFILES_DIR : string) (fs : gmap string (list byte))
    (profile_name : string) :
  profile_name <> EmptyString ->
  endswith (lower profile_name) ".icc" = false ->
  get_icc_profile_base64 ICC_PROFILES_DIR fs profile_name
  = get_icc_profile_base64 ICC_PROFILES_DIR fs (profile_name +:+ ".icc").
Proof.
  intros Hn He. unfold get_icc_profile_base64.
  apply String.eqb_neq in Hn. rewrite Hn, He.
  assert (Hn' := app_not_empty profile_name).
  apply String.eqb_neq in Hn'. rewrite Hn'.
  rewrite lower_app. change (lower ".icc") with ".icc".
  now rewrite endswith_app.
Qed.

(** X15. A profile may be named with or without its extension: a name that
    does not end in [.icc], in any case of the letters, is read as the name
    with [.icc] added. *)
Theorem profile_extension_is_optional
    (ICC_PROFILES_DIR : string) (fs : gmap string (list byte))
    (profile_name : string) :
  profile_name <> EmptyString ->
  endswith (lower profile_name) ".icc" = false ->
  get_icc_profile_base64 ICC_PROFILES_DIR fs profile_name
  = get_icc_profile_base64 ICC_PROFILES_DIR fs (profile_name +:+ ".icc").
Proof. apply profile_extension_reads. Qed.

(** X16. What the reader returns counts as a profile exactly when the named
    file is there and is not empty: an empty file is treated as a missing
    one.  And what it returns holds no markup characters. *)
Theorem profile_is_read_or_nothing
    (ICC_PROFILES_DIR : string) (fs : gmap string (list byte))
    (profile_name : string) :
  let name :=
    if endswith (lower profile_name) ".icc"
    then profile_name else profile_name +:+ ".icc" in
  let icc := get_icc_profile_base64 ICC_PROFILES_DIR fs profile_name in
  (truthy icc = true
   <-> exists bytes,
         profile_name <> EmptyString
         /\ fs !! path_join ICC_PROFILES_DIR name = Some bytes
         /\ bytes <> []
         /\ icc = VStr (b64encode bytes))
  /\ markup_free (str icc).
Proof.
  cbv zeta. unfold get_icc_profile_base64.
  destruct (String.eqb profile_name EmptyString) eqn:Hn.
  { split; [|reflexivity]. apply String.eqb_eq in Hn.
    split; [discriminate|]. now intros (bytes & H & _). }
  apply String.eqb_neq in Hn. cbv zeta.
  destruct (endswith (lower profile_name) ".icc"); cbn [negb];
    (destruct (fs !! _) as [bytes|];
     [|split; [|reflexivity]; split; [discriminate|];
       now intros (bytes & _ & H & _)]);
    (split; [|apply b64encode_markup_free]);
    rewrite truthy_b64encode;
    (split;
     [intros H; exists bytes; repeat split; try assumption;
      intros ->; discriminate H
     |intros (bytes' & _ & H & Hne & _); injection H as ->;
      now rewrite bool_decide_eq_false_2]).
Qed.

Lemma prefix_slash_app (name s : string) :
  String.prefix "/" name = true -> String.prefix "/" (name +:+ s) = true.
Proof.
  destruct name as [|c r]; [discriminate|].
  change (String c r +:+ s) with (String c (r +:+ s)). cbn -[ascii_dec].
  destruct (ascii_dec "/" c); [|discriminate]. intros _.
  now destruct (r +:+ s).
Qed.

Section preview_profile.

Variable fs : gmap string (list byte).
Variable allowed_order : list string.

(** X17. The profile directory does not confine the reader: a profile named
    by an absolute path is read from that path, whatever the directory is,
    and the preview handler passes the form's name to the reader as it is. *)
Theorem profile_name_may_leave_the_directory
    (dir dir' : string) (rq : request) (profile_name : string) :
  form rq !! "icc_profile" = Some profile_name ->
  String.prefix "/" profile_name = true ->
  get_icc_profile_base64 dir fs profile_name
  = get_icc_profile_base64 dir' fs profile_name
  /\ selected_icc dir fs rq = get_icc_profile_base64 dir fs profile_name
  /\ preview_html dir fs allowed_order rq
     = preview_html dir' fs allowed_order rq.
Proof.
  intros Hf Hp.
  assert (E : forall d, get_icc_profile_base64 d fs profile_name
                        = get_icc_profile_base64 "" fs profile_name).
  { intros d. unfold get_icc_profile_base64.
    destruct (String.eqb profile_name EmptyString); [reflexivity|].
    cbv zeta. unfold path_join.
    destruct (negb _); now rewrite ?prefix_slash_app, ?Hp by exact Hp. }
  assert (S : forall d, selected_icc d fs rq
                        = get_icc_profile_base64 d fs profile_name).
  { intros d. unfold selected_icc, form_get. rewrite Hf.
    cbn [default from_option id].
    destruct profile_name; [discriminate Hp|reflexivity]. }
  split; [now rewrite (E dir), (E dir')|]. split; [apply S|].
  unfold preview_html. now rewrite !S, (E dir), (E dir').
Qed.

End preview_profile.

Lemma profile_extension_is_optional_witness :
  get_icc_profile_base64 profiles_dir example_store "press"
  = get_icc_profile_base64 profiles_dir example_store "press.icc".
Proof.
  apply (profile_extension_is_optional profiles_dir example_store "press").
  - discriminate.
  - vm_compute. reflexivity.
Defined.

Lemma profile_name_may_leave_the_directory_witness :
  get_icc_profile_base64 profiles_dir example_store "/etc/color/press.icc"
  = get_icc_profile_base64 "/tmp" example_store "/etc/color/press.icc"
  /\ selected_icc profiles_dir example_store (front_only outside_profile)
     = get_icc_profile_base64 profiles_dir example_store
         "/etc/color/press.icc"
  /\ preview_html profiles_dir example_store extension_order
       (front_only outside_profile)
     = preview_html "/tmp" example_store extension_order
         (front_only outside_profile).
Proof.
  apply (profile_name_may_leave_the_directory example_store extension_order
           profiles_dir "/tmp" (front_only outside_profile)
           "/etc/color/press.icc");
    vm_compute; reflexivity.
Defined.

(** *** The conversion request *)

(** X18. Every conversion request carries the Prince options, with a
    resolution of 300 dpi; the profile is among them unless the settings have
    an empty one ([PDF/X-4] standing in for a missing one); and
    [force_identity_encoding] is there only as false, and only when
    [force_cmyk] is set. *)
Theorem conversion_request_options
    (html_content : string) (settings : gmap string value) :
  let params := create_pdf_params html_content settings in
  let options := prince_options settings in
  let pdf_profile := get settings "pdf_profile" (VStr "PDF/X-4") in
  document_content params = html_content
  /\ doc_prince_options params = Some options
  /\ options !! "css_dpi" = Some (VNum (NInt 300))
  /\ options !! "profile"
     = (if truthy pdf_profile then Some pdf_profile else None)
  /\ options !! "force_identity_encoding"
     = (if truthy (get settings "force_cmyk" (VBool false))
        then Some (VBool false) else None).
Proof.
  cbv zeta.
  assert (D : prince_options settings !! "css_dpi" = Some (VNum (NInt 300))).
  { unfold prince_options. cbv zeta.
    destruct (truthy (get settings "pdf_profile" _)),
      (truthy (get settings "pdf_version" _)),
      (truthy (get settings "force_cmyk" _));
      now rewrite ?lookup_insert_ne, ?lookup_singleton_eq by done. }
  split; [reflexivity|]. split; [|split; [exact D|split]].
  - unfold create_pdf_params. cbn [doc_prince_options].
    rewrite bool_decide_eq_false_2; [reflexivity|].
    intros E. rewrite E in D. discriminate D.
  - unfold prince_options. cbv zeta.
    destruct (truthy (get settings "pdf_profile" _)),
      (truthy (get settings "pdf_version" _)),
      (truthy (get settings "force_cmyk" _));
      now rewrite ?lookup_insert_ne, ?lookup_insert_eq, ?lookup_singleton_ne
        by done.
  - unfold prince_options. cbv zeta.
    destruct (truthy (get settings "pdf_profile" _)),
      (truthy (get settings "pdf_version" _)),
      (truthy (get settings "force_cmyk" _));
      now rewrite ?lookup_insert_eq, ?lookup_insert_ne, ?lookup_singleton_ne
        by done.
Qed.

(** X19. Settings without a [test_mode] key ask for a test document.  The
    settings the PDF handler builds always have the key, set from the form:
    a request without a [test_mode] field asks for a production document.
    The handler never sets [pdf_version]. *)
Theorem test_mode_follows_the_form
    (rq : request) (card_type html_content : string) (icc_base64 : value)
    (settings : gmap string value) :
  let built := generate_pdf_settings rq card_type icc_base64 in
  (settings !! "test_mode" = None ->
   test (create_pdf_params html_content settings) = VBool true)
  /\ test (create_pdf_params html_content built)
     = VBool (form_flag rq "test_mode")
  /\ (form rq !! "test_mode" = None ->
      test (create_pdf_params html_content built) = VBool false)
  /\ prince_options built !! "pdf_version" = None.
Proof.
  cbv zeta. split; [|split; [|split]].
  - intros H. unfold create_pdf_params. cbn [test]. now apply get_missing.
  - unfold create_pdf_params. cbn [test]. now read_settings.
  - intros H. unfold create_pdf_params. cbn [test]. read_settings.
    cbn [default from_option id]. unfold form_flag. rewrite H.
    now rewrite bool_decide_eq_false_2.
  - unfold prince_options. cbv zeta.
    assert (V : get (generate_pdf_settings rq card_type icc_base64)
                  "pdf_version" VNone = VNone) by now read_settings.
    rewrite V. cbn [truthy].
    destruct (truthy (get _ "pdf_profile" _)), (truthy (get _ "force_cmyk" _));
      now rewrite ?lookup_insert_ne, ?lookup_singleton_ne by done.
Qed.

(** *** The name of the PDF *)

Lemma replace_slash_no_slash (s : string) :
  has_char "/" (replace_slash s) = false.
Proof.
  induction s as [|c s IH]; [reflexivity|].
  cbn [replace_slash has_char]. rewrite IH, orb_false_r.
  destruct (Ascii.eqb c "/") eqn:E; [reflexivity|exact E].
Qed.

Lemma replace_slash_id (s : string) :
  has_char "/" s = false -> replace_slash s = s.
Proof.
  induction s as [|c s IH]; [reflexivity|].
  cbn [replace_slash has_char]. intros H.
  apply orb_false_elim in H as [Hc Hs]. now rewrite Hc, IH.
Qed.

(** X20. The name the PDF is saved under has no slash, whatever the form's
    [pdf_profile] is, so the file is written in the upload folder itself.  The
    name ends in [.pdf]; an empty profile gives [output_default.pdf], and a
    profile without a slash is part of the name as it is. *)
Theorem output_filename_stays_in_folder (pdf_profile : string) :
  has_char "/" (output_filename pdf_profile) = false
  /\ ends_with (output_filename pdf_profile) ".pdf"
  /\ output_filename EmptyString = "output_default.pdf"
  /\ (pdf_profile <> EmptyString ->
      has_char "/" pdf_profile = false ->
      output_filename pdf_profile = "output_" +:+ pdf_profile +:+ ".pdf").
Proof.
  split; [|split; [|split; [reflexivity|]]].
  - unfold output_filename. rewrite !has_char_app.
    destruct (negb _); [rewrite replace_slash_no_slash|]; reflexivity.
  - unfold output_filename. do 2 apply ends_with_app. apply ends_with_refl.
  - intros Hn Hs. unfold output_filename. apply String.eqb_neq in Hn.
    rewrite Hn. cbn [negb]. now rewrite replace_slash_id.
Qed.

(** *** Base64 *)

(** X21. The encoding has four characters for every three bytes, the last
    group padded; it is empty for no bytes only. *)
Theorem b64encode_length (bs : list byte) :
  String.length (b64encode bs) = (4 * ((length bs + 2) / 3))%nat
  /\ (b64encode bs = EmptyString <-> bs = []).
Proof.
  split; [|apply b64encode_empty].
  remember (length bs) as n eqn:Hn. revert bs Hn.
  induction n as [n IH] using lt_wf_ind.
  intros [|a [|b [|c r]]] ->; try reflexivity.
  cbn [b64encode]. cbv zeta. cbn [String.length length].
  rewrite (IH (length r) ltac:(cbn [length]; lia) r eq_refl).
  replace (S (S (S (length r))) + 2)%nat with (1 * 3 + (length r + 2))%nat
    by lia.
  rewrite Nat.div_add_l by lia. lia.
Qed.

(** *** The list of profiles *)

Section profile_list.

Variable listdir : option (list string).
Variable str_lower : string -> string.

Local Abbreviation key := (sort_key str_lower).
Local Abbreviation by_name :=
  (fun x y : icc_profile => String.leb (key x) (key y) = true).

Lemma insert_sorted_in (x y : icc_profile) (l : list icc_profile) :
  In y (insert_sorted str_lower x l) <-> y = x \/ In y l.
Proof.
  induction l as [|z l IH]; cbn [insert_sorted In].
  - intuition congruence.
  - destruct (String.ltb _ _); cbn [In]; [intuition congruence|].
    rewrite IH. intuition congruence.
Qed.

Lemma sorted_in_acc (y : icc_profile) (l acc : list icc_profile) :
  In y (fold_left (fun acc x => insert_sorted str_lower x acc) l acc)
  <-> In y l \/ In y acc.
Proof.
  revert acc. induction l as [|x l IH]; intros acc; cbn [fold_left In].
  - tauto.
  - rewrite IH, insert_sorted_in. intuition congruence.
Qed.

Lemma ltb_leb (a b : string) : String.ltb a b = true -> String.leb a b = true.
Proof.
  unfold String.ltb, String.leb. now destruct (String.compare a b).
Qed.

Lemma not_ltb_leb (a b : string) :
  String.ltb a b = false -> String.leb b a = true.
Proof.
  unfold String.ltb, String.leb. rewrite (String.compare_antisym a b).
  now destruct (String.compare b a).
Qed.

Lemma insert_sorted_hd (x y : icc_profile) (l : list icc_profile) :
  by_name y x -> HdRel by_name y l ->
  HdRel by_name y (insert_sorted str_lower x l).
Proof.
  intros Hyx Hl. destruct l as [|z l]; cbn [insert_sorted].
  - now constructor.
  - destruct (String.ltb _ _); constructor; [exact Hyx|].
    now inversion Hl.
Qed.

Lemma insert_sorted_sorted (x : icc_profile) (l : list icc_profile) :
  Sorted by_name l -> Sorted by_name (insert_sorted str_lower x l).
Proof.
  induction 1 as [|y l Hs IH Hd]; cbn [insert_sorted].
  - repeat constructor.
  - destruct (String.ltb (key x) (key y)) eqn:E.
    + constructor; [now constructor|]. constructor. now apply ltb_leb.
    + constructor; [exact IH|].
      apply insert_sorted_hd; [now apply not_ltb_leb|exact Hd].
Qed.

Lemma sorted_sorted_acc (l acc : list icc_profile) :
  Sorted by_name acc ->
  Sorted by_name (fold_left (fun acc x => insert_sorted str_lower x acc) l acc).
Proof.
  revert acc. induction l as [|x l IH]; intros acc H; cbn [fold_left].
  - exact H.
  - now apply IH, insert_sorted_sorted.
Qed.

(** X22. The list has an entry for each entry of the directory whose name
    ends in [.icc], in any case of the letters, and no other; each is named
    by its file name without the extension; the list is in the order of the
    lower-case names; and a directory that is not there gives the empty
    list. *)
Theorem profiles_are_the_icc_files_by_name :
  let profiles := get_available_icc_profiles listdir str_lower in
  (forall x,
      In x profiles
      <-> exists names,
            listdir = Some names
            /\ In (icc_filename x) names
            /\ endswith (lower (icc_filename x)) ".icc" = true
            /\ icc_name x = splitext_root (icc_filename x))
  /\ Sorted (fun x y => String.leb (str_lower (icc_name x))
                          (str_lower (icc_name y)) = true) profiles
  /\ (listdir = None -> profiles = []).
Proof.
  cbv zeta. split; [|split].
  - intros x. unfold get_available_icc_profiles, sorted.
    rewrite sorted_in_acc. cbn [In]. destruct listdir as [names|].
    + rewrite in_map_iff. split.
      * intros [(f & <- & Hf)|[]]. apply filter_In in Hf as [Hf He].
        exists names. cbn [icc_filename icc_name]. auto.
      * intros (names' & E & Hf & He & Hn). injection E as <-. left.
        exists (icc_filename x). split.
        -- destruct x as [f n]. cbn [icc_filename icc_name] in *. now subst n.
        -- apply filter_In. auto.
    + split; [intros [[]|[]]|]. now intros (names & E & _).
  - apply sorted_sorted_acc. constructor.
  - now intros ->.
Qed.

End profile_list.

Section profile_read_back.

Variable ICC_PROFILES_DIR : string.
Variable fs : gmap string (list byte).
Variable listdir : option (list string).
Variable str_lower : string -> string.

(** X23. A listed profile is read by its file name: the reader returns the
    base64 of the file the directory has under that name.  It is read by its
    listed name too when the file's extension is [.icc] in lower case and the
    name does not itself end in [.icc]. *)
Theorem listed_profile_reads_back (x : icc_profile) (bytes : list byte) :
  In x (get_available_icc_profiles listdir str_lower) ->
  fs !! path_join ICC_PROFILES_DIR (icc_filename x) = Some bytes ->
  get_icc_profile_base64 ICC_PROFILES_DIR fs (icc_filename x)
  = VStr (b64encode bytes)
  /\ (icc_filename x = icc_name x +:+ ".icc" ->
      endswith (lower (icc_name x)) ".icc" = false ->
      get_icc_profile_base64 ICC_PROFILES_DIR fs (icc_name x)
      = VStr (b64encode bytes)).
Proof.
  intros Hx Hf.
  assert (He : endswith (lower (icc_filename x)) ".icc" = true
               /\ icc_name x = splitext_root (icc_filename x)).
  { unfold get_available_icc_profiles, sorted in Hx.
    apply sorted_in_acc in Hx as [Hx|[]]. destruct listdir as [names|]; [|easy].
    apply in_map_iff in Hx as (f & <- & Hx).
    apply filter_In in Hx as [_ Hx]. now cbn [icc_filename icc_name]. }
  destruct He as [He Hname].
  assert (R : get_icc_profile_base64 ICC_PROFILES_DIR fs (icc_filename x)
              = VStr (b64encode bytes))
    by now apply icc_profile_read.
  split; [exact R|]. intros Hn Hl.
  rewrite <- R, Hn. apply profile_extension_reads.
  - intros E. rewrite E in Hn. cbn in Hn. rewrite Hn, E in Hname.
    discriminate Hname.
  - exact Hl.
Qed.

End profile_read_back.

Lemma listed_profile_reads_back_witness :
  get_icc_profile_base64 profiles_dir example_store "press.icc"
  = VStr (b64encode [x00; x01]).
Proof.
  refine (proj1 (listed_profile_reads_back profiles_dir example_store
                   example_listing lower (IccProfile "press.icc" "press")
                   [x00; x01] _ _)).
  - vm_compute. left. reflexivity.
  - vm_compute. reflexivity.
Defined.
